(** * PostureGuard: session statistics, rolling window and mock classifier

    A shallow embedding of the executable logic of the front end:

    - [Index.handlePostureUpdate]   (src/Front End/src/pages/Index.tsx)
    - [StatsPanel.stats]            (the [useMemo] body of StatsPanel.tsx)
    - [VideoCapture.analyzePosture] (src/Front End/src/components/VideoCapture.tsx)

    JavaScript numbers that can be fractional (confidence, averages, the
    improvement percentage, the random draws) are IEEE-754 binary64 values,
    modelled with the standard library's executable [spec_float] at
    precision 53 and maximal exponent 1024.  Array lengths, counters and
    indices are integers far below 2^53; they are modelled as [nat]/[Z] and
    converted to binary64 where the source divides them. *)

From Stdlib Require Import String ZArith List Bool Arith Lia.
From Stdlib Require Import Floats.SpecFloat.
Import ListNotations.

Set Implicit Arguments.

(** ** JavaScript numbers *)

Module JS.

Definition number : Type := spec_float.

Definition prec : Z := 53.
Definition emax : Z := 1024.

Definition NaN : number := S754_nan.
Definition zero : number := S754_zero false.

Definition add : number -> number -> number := SFadd prec emax.
Definition sub : number -> number -> number := SFsub prec emax.
Definition mul : number -> number -> number := SFmul prec emax.
Definition div : number -> number -> number := SFdiv prec emax.

(** [x < y], [x >= y] and [x <= y]; all are [false] as soon as an operand
    is NaN. *)
Definition ltb (x y : number) : bool := SFltb x y.
Definition geb (x y : number) : bool := SFleb y x.
Definition leb (x y : number) : bool := SFleb x y.

Definition valid (x : number) : bool := valid_binary prec emax x.

(** An integer seen as a number (exact below 2^53). *)
Definition of_Z (z : Z) : number := binary_normalize prec emax z 0 false.
Definition of_nat (n : nat) : number := of_Z (Z.of_nat n).

(** The decimal literals of the sources.  A decimal literal denotes the
    binary64 value nearest to it, which is what the correctly rounded
    quotient of the two integers computes. *)
Definition lit_0_2 : number := Eval vm_compute in div (of_Z 2) (of_Z 10).
Definition lit_0_3 : number := Eval vm_compute in div (of_Z 3) (of_Z 10).
Definition lit_0_4 : number := Eval vm_compute in div (of_Z 4) (of_Z 10).
Definition lit_0_5 : number := Eval vm_compute in div (of_Z 5) (of_Z 10).
Definition lit_0_7 : number := Eval vm_compute in div (of_Z 7) (of_Z 10).
Definition lit_1 : number := Eval vm_compute in of_Z 1.
Definition lit_100 : number := Eval vm_compute in of_Z 100.

(** [Array.prototype.slice(start, end)]: a negative index counts from the
    end, both indices are clamped to [0, length]; [None] is an omitted
    [end]. *)
Definition rel_index (len k : Z) : Z :=
  if (k <? 0)%Z then Z.max (len + k) 0 else Z.min k len.

Definition slice {A : Type} (l : list A) (start : Z) (stop : option Z) : list A :=
  let len := Z.of_nat (length l) in
  let k := rel_index len start in
  let final := match stop with None => len | Some e => rel_index len e end in
  firstn (Z.to_nat (final - k)) (skipn (Z.to_nat k) l).

End JS.

(** ** Data model (Index.tsx) *)

Inductive ActivityType : Type := squat | desk_sitting.

Inductive PostureStatus : Type := good | warning | bad | neutral.

Definition PostureStatus_eqb (a b : PostureStatus) : bool :=
  match a, b with
  | good, good | warning, warning | bad, bad | neutral, neutral => true
  | _, _ => false
  end.

(** [keyPoints?: any[]]: no function of the repository builds or inspects a
    key point, only the (empty) array is ever stored. *)
Definition any : Type := unit.

Record PostureData : Type := mkPostureData {
  timestamp : Z;
  status : PostureStatus;
  warnings : list string;
  confidence : JS.number;
  keyPoints : option (list any)
}.

Definition is_good (d : PostureData) : bool := PostureStatus_eqb (status d) good.
Definition is_warning (d : PostureData) : bool := PostureStatus_eqb (status d) warning.
Definition is_bad (d : PostureData) : bool := PostureStatus_eqb (status d) bad.
Definition is_neutral (d : PostureData) : bool := PostureStatus_eqb (status d) neutral.

(** ** The rolling window (Index.tsx, [handlePostureUpdate]) *)

Module Index.

(** The two pieces of React state that [handlePostureUpdate] writes. *)
Record State : Type := mkState {
  currentPosture : option PostureData;
  postureData : list PostureData
}.

Definition initial : State :=
  {| currentPosture := None; postureData := [] |}.

(** [setCurrentPosture(data);
     setPostureData(prev => [...prev.slice(-49), data]);] *)
Definition handlePostureUpdate (st : State) (data : PostureData) : State :=
  {| currentPosture := Some data;
     postureData := JS.slice (postureData st) (-49) None ++ [data] |}.

(** The state after the events of [evs] were delivered in order. *)
Definition run (evs : list PostureData) : State :=
  fold_left handlePostureUpdate evs initial.

End Index.

(** ** Session statistics (StatsPanel.tsx, the [useMemo] body) *)

Module StatsPanel.

Record Stats : Type := mkStats {
  totalReadings : nat;
  goodPosture : nat;
  warningPosture : nat;
  badPosture : nat;
  averageConfidence : JS.number;
  currentStreak : nat;
  longestStreak : nat;
  improvement : JS.number
}.

(** [for (let i = postureData.length - 1; i >= 0; i--)
       if (postureData[i].status === 'good') currentStreak++; else break;]
    The first argument is [i + 1].  Reading [postureData[i]] past the end
    yields [undefined], whose [.status] raises a TypeError: [None]. *)
Fixpoint currentStreak_loop (postureData : list PostureData)
         (i_plus_1 : nat) (currentStreak : nat) : option nat :=
  match i_plus_1 with
  | O => Some currentStreak
  | S i =>
      match nth_error postureData i with
      | None => None
      | Some d =>
          if is_good d
          then currentStreak_loop postureData i (S currentStreak)
          else Some currentStreak
      end
  end.

(** One call of the [forEach] callback on the pair
    [(longestStreak, tempStreak)]. *)
Definition longestStreak_step (st : nat * nat) (d : PostureData) : nat * nat :=
  let '(longestStreak, tempStreak) := st in
  if is_good d
  then (Nat.max longestStreak (S tempStreak), S tempStreak)
  else (longestStreak, 0).

Definition longestStreak_loop (postureData : list PostureData) : nat :=
  fst (fold_left longestStreak_step postureData (0, 0)).

(** [h.filter(d => d.status === 'good').length / h.length] *)
Definition goodFraction (h : list PostureData) : JS.number :=
  JS.div (JS.of_nat (length (filter is_good h))) (JS.of_nat (length h)).

Definition stats (postureData : list PostureData) : option Stats :=
  match postureData with
  | [] =>
      Some {| totalReadings := 0; goodPosture := 0; warningPosture := 0;
              badPosture := 0; averageConfidence := JS.zero;
              currentStreak := 0; longestStreak := 0;
              improvement := JS.zero |}
  | _ :: _ =>
      let total := length postureData in
      let good := length (filter is_good postureData) in
      let warning := length (filter is_warning postureData) in
      let bad := length (filter is_bad postureData) in
      let avgConfidence :=
        JS.div (fold_left (fun sum d => JS.add sum (confidence d))
                          postureData JS.zero)
               (JS.of_nat total) in
      match currentStreak_loop postureData (length postureData) 0 with
      | None => None
      | Some currentStreak =>
          let longestStreak := longestStreak_loop postureData in
          (* Math.floor(total / 2): halving an integer below 2^53 is exact
             in binary64, so the floor is the integer quotient *)
          let halfPoint := Z.of_nat (total / 2) in
          let firstHalf := JS.slice postureData 0 (Some halfPoint) in
          let secondHalf := JS.slice postureData halfPoint None in
          let firstHalfGood := goodFraction firstHalf in
          let secondHalfGood := goodFraction secondHalf in
          let improvement :=
            JS.mul (JS.sub secondHalfGood firstHalfGood) JS.lit_100 in
          Some {| totalReadings := total; goodPosture := good;
                  warningPosture := warning; badPosture := bad;
                  averageConfidence := avgConfidence;
                  currentStreak := currentStreak;
                  longestStreak := longestStreak;
                  improvement := improvement |}
      end
  end.

End StatsPanel.

(** ** The mock classifier (VideoCapture.tsx, [analyzePosture]) *)

Module VideoCapture.

(** [random] and [random2] are the results of the two calls of
    [Math.random()], [now] the result of [Date.now()]. *)
Definition analyzePosture (activity : ActivityType)
           (random random2 : JS.number) (now : Z) : PostureData :=
  let '(status, warnings) :=
    match activity with
    | squat =>
        if JS.ltb random JS.lit_0_3 then (bad, ["Knee extends beyond toe"%string])
        else if JS.ltb random JS.lit_0_5 then (warning, ["Back angle could be improved"%string])
        else (good, [])
    | desk_sitting =>
        if JS.ltb random JS.lit_0_2 then (bad, ["Neck angle > 30°"%string])
        else if JS.ltb random JS.lit_0_4 then (warning, ["Back not straight"%string])
        else (good, [])
    end in
  {| timestamp := now;
     status := status;
     warnings := warnings;
     confidence := JS.add (JS.mul random2 JS.lit_0_3) JS.lit_0_7;
     keyPoints := Some [] |}.

End VideoCapture.

(** ** [Math.round] *)

Module JSMath.

(** [Math.round(x)]: the integer closest to [x], a tie going to the larger
    one; an integral [x], a zero, an infinity and NaN are returned as they
    are, and a result of zero keeps the sign of [x].  For a fractional
    [x = +-m * 2^e] the integer is [floor(x + 1/2)], computed exactly. *)
Definition round (x : JS.number) : JS.number :=
  match x with
  | S754_finite s m e =>
      if (0 <=? e)%Z then x
      else
        let n := ((2 * cond_Zopp s (Zpos m) + 2 ^ (- e)) / 2 ^ (1 - e))%Z in
        if (n =? 0)%Z then S754_zero s else JS.of_Z n
  | _ => x
  end.

End JSMath.

(** ** What the panels display (StatsPanel.tsx and PostureAnalysis.tsx) *)

Module StatsPanelView.
Import StatsPanel.

(** [stats.totalReadings > 0
       ? (stats.goodPosture / stats.totalReadings) * 100 : 0], and the same
    for the two other counts. *)
Definition goodPercentage (stats : Stats) : JS.number :=
  if 0 <? totalReadings stats
  then JS.mul (JS.div (JS.of_nat (goodPosture stats))
                      (JS.of_nat (totalReadings stats))) JS.lit_100
  else JS.zero.

Definition warningPercentage (stats : Stats) : JS.number :=
  if 0 <? totalReadings stats
  then JS.mul (JS.div (JS.of_nat (warningPosture stats))
                      (JS.of_nat (totalReadings stats))) JS.lit_100
  else JS.zero.

Definition badPercentage (stats : Stats) : JS.number :=
  if 0 <? totalReadings stats
  then JS.mul (JS.div (JS.of_nat (badPosture stats))
                      (JS.of_nat (totalReadings stats))) JS.lit_100
  else JS.zero.

(** The posture score: [Math.round(goodPercentage)]. *)
Definition postureScore (stats : Stats) : JS.number :=
  JSMath.round (goodPercentage stats).

(** [stats.improvement >= 0]: the test that selects the upward arrow, the
    green badge and the [+] sign of the trend. *)
Definition trendUp (stats : Stats) : bool :=
  JS.geb (improvement stats) JS.zero.

End StatsPanelView.

Module PostureAnalysis.

(** The confidence badge: [Math.round(currentPosture.confidence * 100)]. *)
Definition confidencePercent (currentPosture : PostureData) : JS.number :=
  JSMath.round (JS.mul (confidence currentPosture) JS.lit_100).

End PostureAnalysis.

(** ** Notions used to state the properties *)

(** Every event of [l] is [good]. *)
Definition all_good (l : list PostureData) : Prop :=
  Forall (fun d => status d = good) l.

(** Number of [good] events at the front, respectively at the end, of [l]. *)
Fixpoint leading_good (l : list PostureData) : nat :=
  match l with
  | [] => 0
  | d :: t => if is_good d then S (leading_good t) else 0
  end.

Definition trailing_good (l : list PostureData) : nat := leading_good (rev l).

(** The state of the [forEach] loop of the longest streak after [l]. *)
Definition longestStreak_state (l : list PostureData) : nat * nat :=
  fold_left StatsPanel.longestStreak_step l (0, 0).

(** The same event with another category. *)
Definition with_status (s : PostureStatus) (d : PostureData) : PostureData :=
  {| timestamp := timestamp d; status := s; warnings := warnings d;
     confidence := confidence d; keyPoints := keyPoints d |}.

(** The trend as the specification words it: the buffer is split at
    [floor(total/2)], the rate of a half is the fraction of its [good]
    events, and the trend is the difference of the rates times 100 (in
    binary64 arithmetic). *)
Definition goodRate (h : list PostureData) : JS.number :=
  JS.div (JS.of_nat (length (filter is_good h))) (JS.of_nat (length h)).

Definition trend_spec (buffer : list PostureData) : JS.number :=
  let split := length buffer / 2 in
  JS.mul (JS.sub (goodRate (skipn split buffer)) (goodRate (firstn split buffer)))
         (JS.of_nat 100).

(** Sample events: one event per category, and a session of 51 readings
    with distinct timestamps. *)
Definition sample_event (s : PostureStatus) (t : nat) : PostureData :=
  {| timestamp := Z.of_nat t; status := s; warnings := [];
     confidence := JS.lit_0_7; keyPoints := Some [] |}.

Definition neutral_event : PostureData := sample_event neutral 0.

Definition session_51 : list PostureData := map (sample_event good) (seq 0 51).

(** The state of the rounding shifter of [binary_round_aux] after [k] right
    shifts of the exact mantissa [m]: the quotient, the round bit (set when
    the dropped part is at least half a unit) and the sticky bit (clear
    when nothing was dropped). *)
Definition shifted (m k : Z) (mrs : shr_record) : Prop :=
  (shr_m mrs = m / 2 ^ k /\
   (shr_r mrs = true <-> 2 ^ k <= 2 * (m mod 2 ^ k)) /\
   (m mod 2 ^ k = 0 -> shr_s mrs = false))%Z.

(** How bad a category is. *)
Definition severity (s : PostureStatus) : nat :=
  match s with bad => 2 | warning => 1 | good => 0 | neutral => 0 end.

(** The inputs of one call of [analyzePosture]: the activity, the two
    random draws and the clock. *)
Record Draw : Type := mkDraw {
  draw_activity : ActivityType;
  draw_random : JS.number;
  draw_random2 : JS.number;
  draw_now : Z
}.

Definition analyze (i : Draw) : PostureData :=
  VideoCapture.analyzePosture (draw_activity i) (draw_random i)
                              (draw_random2 i) (draw_now i).


(** Equality of two numbers as data (sign, mantissa and exponent). *)
Definition number_eqb (x y : JS.number) : bool :=
  match x, y with
  | S754_zero s, S754_zero s' => Bool.eqb s s'
  | S754_infinity s, S754_infinity s' => Bool.eqb s s'
  | S754_nan, S754_nan => true
  | S754_finite s m e, S754_finite s' m' e' =>
      Bool.eqb s s' && Pos.eqb m m' && Z.eqb e e'
  | _, _ => false
  end.

(** A number between 0 and 100 (and so not NaN). *)
Definition in_percent_range (p : JS.number) : Prop :=
  JS.geb p JS.zero = true /\ JS.leb p JS.lit_100 = true.

(** *** The counts a window of at most 50 events can have

    The buffer never holds more than 50 events, so a percentage is the
    image of one of the 1325 pairs (count, total) and an improvement that
    of one of the 12048 triples (total, good in the first half, good in the
    second half).  The properties of these binary64 values are checked on
    every pair and triple by evaluation. *)
Definition percent_of (count total : nat) : JS.number :=
  JS.mul (JS.div (JS.of_nat count) (JS.of_nat total)) JS.lit_100.

Definition window_counts : list (nat * nat) :=
  flat_map (fun n => map (fun g => (g, n)) (seq 0 (S n))) (seq 1 50).

(** The percentage is in range, is 100 only for [count = total] and 0 only
    for [count = 0]. *)
Definition percent_check (gn : nat * nat) : bool :=
  let '(g, n) := gn in
  let p := percent_of g n in
  JS.geb p JS.zero && JS.leb p JS.lit_100
  && Bool.eqb (number_eqb p JS.lit_100) (g =? n)
  && Bool.eqb (number_eqb p JS.zero) (g =? 0).

(** The rounded percentage is the integer below or above [100 * g / n],
    whichever is within half a unit. *)
Definition score_check (gn : nat * nat) : bool :=
  let '(g, n) := gn in
  let k := (100 * Z.of_nat g / Z.of_nat n)%Z in
  let r := JSMath.round (percent_of g n) in
  (number_eqb r (JS.of_Z k)
   && (2 * (100 * Z.of_nat g - k * Z.of_nat n) <=? Z.of_nat n)%Z)
  || (number_eqb r (JS.of_Z (k + 1))
      && (2 * ((k + 1) * Z.of_nat n - 100 * Z.of_nat g) <=? Z.of_nat n)%Z).

Definition trend_of_counts (g1 n1 g2 n2 : nat) : JS.number :=
  JS.mul (JS.sub (JS.div (JS.of_nat g2) (JS.of_nat n2))
                 (JS.div (JS.of_nat g1) (JS.of_nat n1))) JS.lit_100.

Definition window_splits : list (nat * nat * nat) :=
  flat_map (fun n =>
    flat_map (fun g1 => map (fun g2 => (n, g1, g2)) (seq 0 (S (n - n / 2))))
             (seq 0 (S (n / 2))))
    (seq 2 49).

(** The improvement is at least 0 exactly when [g1 / n1 <= g2 / n2] (cross
    multiplied), lies between -100 and 100, and is below 0 exactly when
    [g2 / n2 < g1 / n1]. *)
Definition trend_check (x : nat * nat * nat) : bool :=
  let '(n, g1, g2) := x in
  let n1 := n / 2 in
  let n2 := n - n / 2 in
  let t := trend_of_counts g1 n1 g2 n2 in
  Bool.eqb (JS.geb t JS.zero) (g1 * n2 <=? g2 * n1)
  && JS.leb t JS.lit_100 && JS.geb t (JS.of_Z (-100))
  && Bool.eqb (JS.ltb t JS.zero) (g2 * n1 <? g1 * n2).

(** * Properties *)

(** ** Array slices *)

Section Slice.
Context {A : Type}.
Implicit Types l : list A.

Lemma slice_last l (n : nat) :
  JS.slice l (- Z.of_nat (S n)) None = skipn (length l - S n) l.
Proof.
  unfold JS.slice, JS.rel_index.
  destruct (Z.ltb_spec (- Z.of_nat (S n)) 0) as [_|H]; [|lia].
  replace (Z.to_nat (Z.max (Z.of_nat (length l) + - Z.of_nat (S n)) 0))
    with (length l - S n) by lia.
  apply firstn_all2. rewrite length_skipn. lia.
Qed.

Lemma slice_upto l (n : nat) :
  n <= length l -> JS.slice l 0 (Some (Z.of_nat n)) = firstn n l.
Proof.
  intros Hn. unfold JS.slice, JS.rel_index. change (0 <? 0)%Z with false. cbv iota.
  destruct (Z.ltb_spec (Z.of_nat n) 0) as [H|_]; [lia|].
  replace (Z.min 0 (Z.of_nat (length l))) with 0%Z by lia.
  replace (Z.min (Z.of_nat n) (Z.of_nat (length l))) with (Z.of_nat n) by lia.
  simpl (Z.to_nat 0). rewrite skipn_O. f_equal. lia.
Qed.

Lemma slice_from l (n : nat) :
  n <= length l -> JS.slice l (Z.of_nat n) None = skipn n l.
Proof.
  intros Hn. unfold JS.slice, JS.rel_index.
  destruct (Z.ltb_spec (Z.of_nat n) 0) as [H|_]; [lia|].
  rewrite Z.min_l by lia. rewrite Nat2Z.id.
  apply firstn_all2. rewrite length_skipn. lia.
Qed.
End Slice.

(** ** Binary64 rounding

    What is needed of the rounding of [SFmul] and [SFadd]: the rounded
    mantissa is the quotient of the shift or its successor, and it is the
    quotient itself when less than half a unit was dropped. *)

Module Binary64Facts.
Local Open Scope Z_scope.
Local Unset Implicit Arguments.

Lemma digits2_pos_bounds (p : positive) :
  2 ^ (Zpos (digits2_pos p) - 1) <= Zpos p < 2 ^ Zpos (digits2_pos p).
Proof.
  induction p as [p IH|p IH|]; cbn [digits2_pos]; rewrite ?Pos2Z.inj_succ.
  - replace (Z.succ (Zpos (digits2_pos p)) - 1) with (Z.succ (Zpos (digits2_pos p) - 1)) by lia.
    rewrite !Z.pow_succ_r by lia. lia.
  - replace (Z.succ (Zpos (digits2_pos p)) - 1) with (Z.succ (Zpos (digits2_pos p) - 1)) by lia.
    rewrite !Z.pow_succ_r by lia. lia.
  - simpl. lia.
Qed.

Lemma digits2_pos_le (p : positive) (k : Z) :
  Zpos p < 2 ^ k -> Zpos (digits2_pos p) <= k.
Proof.
  intros H. destruct (Z.le_gt_cases (Zpos (digits2_pos p)) k) as [|Hgt]; [assumption|].
  exfalso. destruct (Z.le_gt_cases 0 k) as [Hk|Hk].
  - pose proof (digits2_pos_bounds p) as [Hlo _].
    assert (2 ^ k <= 2 ^ (Zpos (digits2_pos p) - 1)) by (apply Z.pow_le_mono_r; lia).
    lia.
  - rewrite Z.pow_neg_r in H by lia. lia.
Qed.

Lemma digits2_pos_ge (p : positive) (k : Z) :
  2 ^ k <= Zpos p -> k + 1 <= Zpos (digits2_pos p).
Proof.
  intros H. destruct (Z.le_gt_cases (k + 1) (Zpos (digits2_pos p))) as [|Hgt]; [assumption|].
  exfalso. pose proof (digits2_pos_bounds p) as [_ Hhi].
  assert (2 ^ Zpos (digits2_pos p) <= 2 ^ k) by (apply Z.pow_le_mono_r; lia).
  lia.
Qed.

Lemma Zdigits2_le (q k : Z) : 0 <= q -> 0 <= k -> q < 2 ^ k -> Zdigits2 q <= k.
Proof.
  intros Hq Hk H. destruct q as [|p|p]; simpl; [assumption| |lia].
  now apply digits2_pos_le.
Qed.

Lemma iter_pos_invariant {A : Type} (f : A -> A) (Inv : Z -> A -> Prop) :
  (forall k x, 0 <= k -> Inv k x -> Inv (k + 1) (f x)) ->
  forall p k x, 0 <= k -> Inv k x -> Inv (k + Zpos p) (iter_pos f p x).
Proof.
  intros Hstep. induction p as [p IH|p IH|]; intros k x Hk Hx; cbn [iter_pos].
  - replace (k + Zpos p~1) with (k + 1 + Zpos p + Zpos p) by lia.
    apply IH; [lia|]. apply IH; [lia|]. now apply Hstep.
  - replace (k + Zpos p~0) with (k + Zpos p + Zpos p) by lia.
    apply IH; [lia|]. now apply IH.
  - now apply Hstep.
Qed.

Lemma shr_1_halves (q : Z) (r s : bool) :
  0 <= q ->
  exists q', shr_1 (Build_shr_record q r s)
             = Build_shr_record q' (Z.odd q) (r || s) /\ q = 2 * q' + Z.b2z (Z.odd q).
Proof.
  intros Hq. destruct q as [|[p|p|]|p]; try lia; simpl; eexists; split; try reflexivity; lia.
Qed.

Lemma shifted_step (m k : Z) (mrs : shr_record) :
  0 <= m -> 0 <= k -> shifted m k mrs -> shifted m (k + 1) (shr_1 mrs).
Proof.
  intros Hm Hk (Hq & Hr & Hs). destruct mrs as [q r s]. cbn [shr_m shr_r shr_s] in *.
  assert (HB : 0 < 2 ^ k) by (apply Z.pow_pos_nonneg; lia).
  assert (Hq0 : 0 <= q) by (subst q; apply Z.div_pos; lia).
  destruct (shr_1_halves q r s Hq0) as (q' & -> & Hq').
  unfold shifted. cbn [shr_m shr_r shr_s].
  rewrite Z.pow_add_r, Z.pow_1_r by lia.
  set (B := 2 ^ k) in *.
  assert (Hdiv : m / (B * 2) = q').
  { rewrite <- Z.div_div by lia. rewrite <- Hq.
    assert (0 <= Z.b2z (Z.odd q) <= 1) by (destruct (Z.odd q); simpl; lia).
    Z.div_mod_to_equations; lia. }
  assert (Hmod : m mod (B * 2) = m mod B + B * Z.b2z (Z.odd q)).
  { rewrite Z.rem_mul_r by lia. rewrite <- Hq. f_equal. f_equal.
    assert (0 <= Z.b2z (Z.odd q) <= 1) by (destruct (Z.odd q); simpl; lia).
    Z.div_mod_to_equations; lia. }
  pose proof (Z.mod_pos_bound m B HB) as Hrem.
  rewrite Hdiv, Hmod. split; [reflexivity|]. split.
  - destruct (Z.odd q); cbn [Z.b2z]; split; intros H; try reflexivity.
    + lia.
    + discriminate.
    + exfalso. lia.
  - intros H0. assert (m mod B = 0) by (destruct (Z.odd q); simpl in H0; lia).
    assert (r = false).
    { destruct r; [|reflexivity]. assert (B <= 2 * (m mod B)) by now apply Hr. lia. }
    subst r. simpl. now apply Hs.
Qed.

Lemma shifted_iter (m : Z) (p : positive) :
  0 <= m -> shifted m (Zpos p) (iter_pos shr_1 p (Build_shr_record m false false)).
Proof.
  intros Hm. change (Zpos p) with (0 + Zpos p) at 1.
  apply (iter_pos_invariant shr_1 (shifted m)); [|lia|].
  - intros k x Hk. now apply shifted_step.
  - unfold shifted. simpl. rewrite Z.div_1_r, Z.mod_1_r. repeat split; auto; try discriminate; lia.
Qed.

Lemma fexp_eq (x : Z) : fexp JS.prec JS.emax x = Z.max (x - 53) (-1074).
Proof. reflexivity. Qed.

Lemma round_nearest_even_bounds (mrs : shr_record) :
  shr_m mrs <= round_nearest_even (shr_m mrs) (loc_of_shr_record mrs) <= shr_m mrs + 1 /\
  (shr_r mrs = false ->
   round_nearest_even (shr_m mrs) (loc_of_shr_record mrs) = shr_m mrs).
Proof.
  destruct mrs as [q [|] [|]]; cbn; try destruct (Z.even q);
    (split; [lia|intros; (discriminate || reflexivity)]).
Qed.

(** Shifting an exact mantissa by [n] places, then rounding to nearest even. *)
Lemma shr_then_round (mx ex n : Z) :
  0 <= mx ->
  exists mrs q1,
    shr (Build_shr_record mx false false) ex n = (mrs, ex + Z.max 0 n) /\
    shr_m mrs = mx / 2 ^ Z.max 0 n /\
    round_nearest_even (shr_m mrs) (loc_of_shr_record mrs) = q1 /\
    mx / 2 ^ Z.max 0 n <= q1 <= mx / 2 ^ Z.max 0 n + 1 /\
    (q1 = mx / 2 ^ Z.max 0 n + 1 -> 2 ^ Z.max 0 n <= 2 * (mx mod 2 ^ Z.max 0 n)).
Proof.
  intros Hm. destruct n as [|p|p]; cbn [shr].
  - exists (Build_shr_record mx false false), mx. cbn.
    rewrite Z.add_0_r, Z.div_1_r. repeat split; auto; lia.
  - destruct (shifted_iter mx p Hm) as (Hq & Hr & Hs).
    set (mrs := iter_pos shr_1 p _) in *.
    destruct (round_nearest_even_bounds mrs) as (Hb & Hex).
    exists mrs, (round_nearest_even (shr_m mrs) (loc_of_shr_record mrs)).
    replace (Z.max 0 (Zpos p)) with (Zpos p) by lia.
    rewrite <- Hq. repeat split; auto; try lia.
    intros Hup. apply Hr. destruct (shr_r mrs); [reflexivity|].
    specialize (Hex eq_refl). lia.
  - exists (Build_shr_record mx false false), mx. cbn.
    rewrite Z.add_0_r, Z.div_1_r. repeat split; auto; lia.
Qed.

(** The two shifts of [binary_round_aux] on an exact, non-negative input. *)
Lemma binary_round_aux_exact (sx : bool) (mx ex : Z) :
  0 <= mx ->
  exists q1,
    mx / 2 ^ Z.max 0 (fexp JS.prec JS.emax (Zdigits2 mx + ex) - ex) <= q1
      <= mx / 2 ^ Z.max 0 (fexp JS.prec JS.emax (Zdigits2 mx + ex) - ex) + 1 /\
    (q1 = mx / 2 ^ Z.max 0 (fexp JS.prec JS.emax (Zdigits2 mx + ex) - ex) + 1 ->
     2 ^ Z.max 0 (fexp JS.prec JS.emax (Zdigits2 mx + ex) - ex)
       <= 2 * (mx mod 2 ^ Z.max 0 (fexp JS.prec JS.emax (Zdigits2 mx + ex) - ex))) /\
    forall e1 s2,
      e1 = ex + Z.max 0 (fexp JS.prec JS.emax (Zdigits2 mx + ex) - ex) ->
      s2 = Z.max 0 (fexp JS.prec JS.emax (Zdigits2 q1 + e1) - e1) ->
      binary_round_aux JS.prec JS.emax sx mx ex loc_Exact =
        match q1 / 2 ^ s2 with
        | Z0 => S754_zero sx
        | Zpos m => if e1 + s2 <=? JS.emax - JS.prec
                    then S754_finite sx m (e1 + s2) else S754_infinity sx
        | Zneg _ => S754_nan
        end.
Proof.
  intros Hm.
  destruct (shr_then_round mx ex (fexp JS.prec JS.emax (Zdigits2 mx + ex) - ex) Hm)
    as (mrs & q1 & Hshr & _ & Hq1 & Hb & Hup).
  exists q1. split; [exact Hb|]. split; [exact Hup|].
  intros e1 s2 -> ->.
  assert (Hq0 : 0 <= q1).
  { assert (0 <= mx / 2 ^ Z.max 0 (fexp JS.prec JS.emax (Zdigits2 mx + ex) - ex)).
    { apply Z.div_pos; [lia|]. apply Z.pow_pos_nonneg; lia. }
    lia. }
  set (e1 := ex + Z.max 0 _) in *.
  destruct (shr_then_round q1 e1 (fexp JS.prec JS.emax (Zdigits2 q1 + e1) - e1) Hq0)
    as (mrs2 & q2 & Hshr2 & Hm2 & _).
  unfold binary_round_aux, shr_fexp. cbn [shr_record_of_loc].
  rewrite Hshr, Hq1, Hshr2, Hm2. reflexivity.
Qed.

Lemma pos_iter_xO (d m : positive) : Zpos (Pos.iter xO m d) = Zpos m * 2 ^ Zpos d.
Proof.
  induction d as [|d IH] using Pos.peano_ind.
  - cbn [Pos.iter]. rewrite Z.pow_1_r. lia.
  - rewrite Pos.iter_succ, Pos2Z.inj_xO, IH, Pos2Z.inj_succ, Z.pow_succ_r by lia. lia.
Qed.

(** Adding 0.7 to a positive number that is at most 2702159776422297 * 2^-53
    (the largest product of a draw below 1 with 0.3) stays in the binade of
    0.7 and below 1. *)
Lemma add_lit_0_7_bounds (mp : positive) (ep : Z) :
  ep <= -54 ->
  Zpos mp <= 2702159776422297 * 2 ^ (-53 - ep) ->
  exists mc,
    SFadd JS.prec JS.emax (S754_finite false mp ep) JS.lit_0_7 = S754_finite false mc (-53) /\
    6305039478318694 <= Zpos mc <= 9007199254740991.
Proof.
  intros Hep Hmp. remember (-53 - ep) as k eqn:Hkdef.
  assert (Hk : 1 <= k) by lia.
  assert (HB : 2 <= 2 ^ k).
  { change 2 with (2 ^ 1) at 1. apply Z.pow_le_mono_r; lia. }
  unfold JS.lit_0_7. cbn [SFadd].
  rewrite Z.min_l by lia.
  unfold shl_align at 1. rewrite Z.sub_diag. cbn [fst cond_Zopp].
  unfold shl_align at 1.
  destruct (ep - -53) as [|d|d] eqn:Hd; try lia. cbn [fst].
  assert (Hdk : Zpos d = k) by lia.
  rewrite <- Pos2Z.inj_add. cbn [binary_normalize]. unfold binary_round.
  set (M := (mp + Pos.iter xO 6305039478318694 d)%positive).
  assert (HM : Zpos M = Zpos mp + 6305039478318694 * 2 ^ k).
  { unfold M. rewrite Pos2Z.inj_add, pos_iter_xO, Hdk. reflexivity. }
  assert (Hdig : Zpos (digits2_pos M) = 53 + k).
  { assert (Hpk : 2 ^ (53 + k) = 9007199254740992 * 2 ^ k)
      by (rewrite Z.pow_add_r by lia; reflexivity).
    assert (Hpk' : 2 ^ (52 + k) = 4503599627370496 * 2 ^ k)
      by (rewrite Z.pow_add_r by lia; reflexivity).
    apply Z.le_antisymm.
    - apply digits2_pos_le. lia.
    - replace (53 + k) with (52 + k + 1) by lia. apply digits2_pos_ge. lia. }
  rewrite Hdig. replace (53 + k + ep) with 0 by lia.
  rewrite fexp_eq. change (Z.max (0 - 53) (-1074)) with (-53).
  unfold shl_align. rewrite <- Hkdef.
  assert (Hsh : match k with Z.neg d0 => (Pos.iter xO M d0, -53) | _ => (M, ep) end = (M, ep))
    by (destruct k; [reflexivity|reflexivity|lia]).
  rewrite Hsh. clear Hsh.
  destruct (binary_round_aux_exact false (Zpos M) ep) as (q1 & Hb & Hup & Hres); [lia|].
  cbn [Zdigits2] in *. rewrite Hdig in *.
  replace (53 + k + ep) with 0 in * by lia. rewrite fexp_eq in *.
  replace (Z.max 0 (Z.max (0 - 53) (-1074) - ep)) with k in * by lia.
  assert (Hq1 : 6305039478318694 <= q1 <= 9007199254740991).
  { revert Hb Hup. rewrite HM. generalize (2 ^ k) HB Hmp. clear. intros B HB Hmp Hb Hup.
    assert (B <> 0) by lia.
    pose proof (Z.div_mod (Zpos mp + 6305039478318694 * B) B ltac:(lia)).
    pose proof (Z.mod_pos_bound (Zpos mp + 6305039478318694 * B) B ltac:(lia)).
    set (q := (Zpos mp + 6305039478318694 * B) / B) in *.
    set (r := (Zpos mp + 6305039478318694 * B) mod B) in *.
    assert (6305039478318694 <= q) by nia.
    assert (q <= 9007199254740991) by nia.
    split; [lia|].
    destruct (Z.eq_dec q1 (q + 1)) as [Heq|]; [|lia].
    specialize (Hup Heq). nia. }
  specialize (Hres (ep + k) 0 eq_refl).
  destruct q1 as [|mc|mc]; try lia.
  exists mc. split; [|lia].
  rewrite Hres.
  - rewrite Z.pow_0_r, Z.div_1_r. replace (ep + k + 0) with (-53) by lia. reflexivity.
  - cbn [Zdigits2].
    assert (Zpos (digits2_pos mc) = 53).
    { apply Z.le_antisymm.
      - apply digits2_pos_le. lia.
      - change 53 with (52 + 1). apply digits2_pos_ge. lia. }
    rewrite fexp_eq. lia.
Qed.

Lemma bounded_mantissa (m : positive) (e : Z) :
  bounded JS.prec JS.emax m e = true -> Zpos m <= 9007199254740991 /\ -1074 <= e.
Proof.
  unfold bounded, canonical_mantissa. intros H.
  apply andb_true_iff in H as [H _]. apply Z.eqb_eq in H. rewrite fexp_eq in H.
  pose proof (digits2_pos_bounds m) as [_ Hhi].
  assert (2 ^ Zpos (digits2_pos m) <= 2 ^ 53) by (apply Z.pow_le_mono_r; lia).
  change (2 ^ 53) with 9007199254740992 in *. lia.
Qed.

(** Multiplying a draw below 1 by 0.3 gives zero or a positive number that
    is at most 5404319552844594 * 2^-54 = 2702159776422297 * 2^-53. *)
Lemma mul_lit_0_3_bounds (m : positive) (e : Z) :
  bounded JS.prec JS.emax m e = true ->
  e <= -53 ->
  SFmul JS.prec JS.emax (S754_finite false m e) JS.lit_0_3 = S754_zero false \/
  exists mp ep,
    SFmul JS.prec JS.emax (S754_finite false m e) JS.lit_0_3 = S754_finite false mp ep /\
    ep <= -54 /\
    Zpos mp <= 2702159776422297 * 2 ^ (-53 - ep).
Proof.
  intros Hbd He. destruct (bounded_mantissa m e Hbd) as [Hm Hemin].
  unfold JS.lit_0_3. cbn [SFmul xorb].
  set (P := (m * 5404319552844595)%positive).
  assert (HP : Zpos P = Zpos m * 5404319552844595) by (unfold P; apply Pos2Z.inj_mul).
  remember (-53 - e) as t eqn:Ht.
  assert (HdPlo : 53 <= Zpos (digits2_pos P)).
  { change 53 with (52 + 1). apply digits2_pos_ge.
    change (2 ^ 52) with 4503599627370496. lia. }
  assert (HdPhi : Zpos (digits2_pos P) <= 106).
  { apply digits2_pos_le. change (2 ^ 106) with (9007199254740992 * 9007199254740992). nia. }
  destruct (binary_round_aux_exact false (Zpos P) (e + -54)) as (q1 & Hb & Hup & Hres);
    [lia|].
  cbn [Zdigits2] in Hb, Hup, Hres. rewrite fexp_eq in Hb, Hup, Hres.
  remember (Z.max 0 (Z.max (Zpos (digits2_pos P) + (e + -54) - 53) (-1074) - (e + -54)))
    as s1 eqn:Hs1.
  assert (Hs1b : 0 <= s1 <= 53 + t) by lia.
  assert (HB : 0 < 2 ^ s1) by (apply Z.pow_pos_nonneg; lia).
  (* the rounded mantissa is below the bound expressed at exponent e - 54 + s1 *)
  assert (Hq1 : 0 <= q1 <= 2702159776422297 * 2 ^ (54 + t - s1)).
  { assert (0 <= Zpos P / 2 ^ s1) by (apply Z.div_pos; lia).
    split; [lia|].
    assert (HU : 2702159776422297 * 2 ^ (54 + t) = 2702159776422297 * 2 ^ (54 + t - s1) * 2 ^ s1).
    { rewrite <- Z.mul_assoc, <- Z.pow_add_r by lia. do 2 f_equal. lia. }
    destruct (Z.le_gt_cases (Zpos P) (2702159776422297 * 2 ^ (54 + t))) as [Hle|Hgt].
    - rewrite HU in Hle.
      assert (0 < 2 ^ (54 + t - s1)) by (apply Z.pow_pos_nonneg; lia).
      revert Hb Hup Hle. generalize (2 ^ (54 + t - s1)) (2 ^ s1) HB. clear.
      intros v B HB Hb Hup Hle.
      pose proof (Z.div_mod (Zpos P) B ltac:(lia)).
      pose proof (Z.mod_pos_bound (Zpos P) B HB).
      set (q := Zpos P / B) in *. set (r := Zpos P mod B) in *.
      assert (q <= 2702159776422297 * v) by nia.
      destruct (Z.eq_dec q1 (q + 1)) as [Heq|]; [|lia].
      specialize (Hup Heq). nia.
    - assert (t = 0).
      { destruct (Z.le_gt_cases 1 t) as [H1|]; [|lia]. exfalso.
        assert (2 ^ 55 <= 2 ^ (54 + t)) by (apply Z.pow_le_mono_r; lia).
        change (2 ^ 55) with 36028797018963968 in *. nia. }
      subst t. replace e with (-53) in * by lia.
      change (2 ^ (54 + 0)) with 18014398509481984 in Hgt.
      assert (Hd : Zpos (digits2_pos P) = 106).
      { apply Z.le_antisymm; [assumption|]. change 106 with (105 + 1).
        apply digits2_pos_ge. change (2 ^ 105) with 40564819207303340847894502572032. lia. }
      rewrite Hd in Hs1. cbn in Hs1. subst s1.
      change (2 ^ (54 + 0 - 53)) with 2. change (2 ^ 53) with 9007199254740992 in *.
      pose proof (Z.div_mod (Zpos P) 9007199254740992 ltac:(lia)).
      pose proof (Z.mod_pos_bound (Zpos P) 9007199254740992 ltac:(lia)).
      set (q := Zpos P / 9007199254740992) in *.
      set (r := Zpos P mod 9007199254740992) in *.
      assert (q = 5404319552844594) by lia.
      destruct (Z.eq_dec q1 (q + 1)) as [Heq|]; [|lia].
      specialize (Hup Heq). lia. }
  remember (e + -54 + s1) as e1 eqn:He1.
  remember (Z.max 0 (fexp JS.prec JS.emax (Zdigits2 q1 + e1) - e1)) as s2 eqn:Hs2.
  specialize (Hres e1 s2 eq_refl Hs2).
  assert (Hdq : Zdigits2 q1 <= 106 + t - s1).
  { apply Zdigits2_le; [lia|lia|].
    assert (0 < 2 ^ (54 + t - s1)) by (apply Z.pow_pos_nonneg; lia).
    replace (106 + t - s1) with (52 + (54 + t - s1)) by lia.
    rewrite Z.pow_add_r by lia. change (2 ^ 52) with 4503599627370496. nia. }
  rewrite fexp_eq in Hs2.
  assert (Hs2b : 0 <= s2 <= 53 + t - s1) by lia.
  assert (Hq2 : 0 <= q1 / 2 ^ s2 <= 2702159776422297 * 2 ^ (54 + t - s1 - s2)).
  { assert (0 < 2 ^ s2) by (apply Z.pow_pos_nonneg; lia).
    split; [apply Z.div_pos; lia|].
    apply Z.div_le_upper_bound; [lia|].
    rewrite (Z.mul_comm (2 ^ s2)), <- Z.mul_assoc, <- Z.pow_add_r by lia.
    replace (54 + t - s1 - s2 + s2) with (54 + t - s1) by lia. lia. }
  rewrite Hres. destruct (q1 / 2 ^ s2) as [|mp|mp]; [now left| |lia].
  right. exists mp, (e1 + s2).
  replace (e1 + s2 <=? JS.emax - JS.prec) with true
    by (symmetry; apply Z.leb_le; unfold JS.emax, JS.prec; lia).
  split; [reflexivity|]. split; [lia|].
  replace (-53 - (e1 + s2)) with (54 + t - s1 - s2) by lia. lia.
Qed.

(** The mantissa comparison of [SFcompare], read on integers. *)
Lemma compare_cont_Eq (m c : positive) :
  Pos.compare_cont Eq m c = (Zpos m ?= Zpos c).
Proof.
  rewrite Pos.compare_cont_spec.
  change (Zpos m ?= Zpos c) with (m ?= c)%positive.
  now destruct (m ?= c)%positive.
Qed.

End Binary64Facts.

(** ** The rolling window keeps the last 50 events *)

Module WindowFacts.
Import Index.

Lemma run_snoc evs d : run (evs ++ [d]) = handlePostureUpdate (run evs) d.
Proof. unfold run. now rewrite fold_left_app. Qed.

Lemma run_window evs : postureData (run evs) = skipn (length evs - 50) evs.
Proof.
  induction evs as [|d evs IH] using rev_ind; [reflexivity|].
  rewrite run_snoc. unfold handlePostureUpdate. cbn [postureData].
  change (-49)%Z with (- Z.of_nat 49)%Z. rewrite slice_last, IH.
  rewrite length_skipn, skipn_skipn, length_app. cbn [length].
  destruct (Nat.le_gt_cases (length evs) 49) as [Hle|Hgt].
  - replace (length evs - (length evs - 50) - 49 + (length evs - 50)) with 0 by lia.
    replace (length evs + 1 - 50) with 0 by lia. reflexivity.
  - replace (length evs - (length evs - 50) - 49 + (length evs - 50))
      with (length evs + 1 - 50) by lia.
    rewrite skipn_app.
    replace (length evs + 1 - 50 - length evs) with 0 by lia. reflexivity.
Qed.

Lemma run_length evs : length (postureData (run evs)) = Nat.min (length evs) 50.
Proof. rewrite run_window, length_skipn. lia. Qed.

End WindowFacts.

(** ** Streaks *)

Module StreakFacts.
Import StatsPanel.

Lemma is_good_iff d : is_good d = true <-> status d = good.
Proof. unfold is_good. destruct (status d); simpl; split; congruence. Qed.

Lemma is_good_false d : is_good d = false <-> status d <> good.
Proof. unfold is_good. destruct (status d); simpl; split; congruence. Qed.

Lemma trailing_good_snoc l d :
  trailing_good (l ++ [d]) = if is_good d then S (trailing_good l) else 0.
Proof. unfold trailing_good. now rewrite rev_app_distr. Qed.

Lemma trailing_good_nil : trailing_good [] = 0.
Proof. reflexivity. Qed.

(** The backward loop started at index [n - 1] counts the good events at
    the end of the first [n] elements, and never reads out of range. *)
Lemma currentStreak_loop_spec data :
  forall n acc, n <= length data ->
    currentStreak_loop data n acc = Some (acc + trailing_good (firstn n data)).
Proof.
  induction n as [|i IH]; intros acc Hn.
  - simpl. now rewrite Nat.add_0_r.
  - cbn [currentStreak_loop].
    destruct (nth_error data i) as [d|] eqn:Hd.
    + assert (Hsplit : firstn (S i) data = firstn i data ++ [d]).
      { clear IH acc. revert i Hn Hd.
        induction data as [|x data IHd]; intros [|i] Hn Hd; simpl in *;
          try discriminate; try lia.
        - now inversion Hd.
        - f_equal. apply IHd; [lia|assumption]. }
      rewrite Hsplit, trailing_good_snoc.
      destruct (is_good d).
      * rewrite IH by lia. f_equal. lia.
      * f_equal. lia.
    + apply nth_error_None in Hd. lia.
Qed.

Lemma currentStreak_loop_full data :
  currentStreak_loop data (length data) 0 = Some (trailing_good data).
Proof.
  rewrite currentStreak_loop_spec by lia. now rewrite firstn_all.
Qed.

(** *** The good events at the front of a list *)

Lemma leading_good_split l :
  exists pfx rest,
    l = pfx ++ rest /\ all_good pfx /\ length pfx = leading_good l /\
    (rest = [] \/ exists d rest', rest = d :: rest' /\ status d <> good).
Proof.
  induction l as [|d l (pfx & rest & -> & Hg & Hlen & Hrest)].
  - exists [], []. repeat split; auto. constructor.
  - simpl. destruct (is_good d) eqn:Hd.
    + exists (d :: pfx), rest. repeat split; auto.
      * constructor; [now apply is_good_iff|assumption].
      * simpl. now rewrite Hlen.
    + exists [], (d :: pfx ++ rest). repeat split; auto.
      * constructor.
      * right. exists d, (pfx ++ rest). split; [reflexivity|].
        now apply is_good_false.
Qed.

Lemma leading_good_prefix pfx rest :
  all_good pfx -> length pfx <= leading_good (pfx ++ rest).
Proof.
  induction 1 as [|d pfx Hd _ IH]; simpl; [lia|].
  apply is_good_iff in Hd. rewrite Hd. lia.
Qed.

Lemma all_good_rev l : all_good l -> all_good (rev l).
Proof.
  unfold all_good. rewrite !Forall_forall. intros H x Hx.
  apply H. now apply in_rev.
Qed.

(** *** The good events at the end of a list *)

Lemma trailing_good_split l :
  exists pre suf,
    l = pre ++ suf /\ all_good suf /\ length suf = trailing_good l /\
    (pre = [] \/ exists pre' d, pre = pre' ++ [d] /\ status d <> good).
Proof.
  destruct (leading_good_split (rev l)) as (pfx & rest & Hl & Hg & Hlen & Hrest).
  exists (rev rest), (rev pfx). repeat split.
  - rewrite <- rev_app_distr, <- Hl. now rewrite rev_involutive.
  - now apply all_good_rev.
  - rewrite length_rev. exact Hlen.
  - destruct Hrest as [->|(d & rest' & -> & Hd)]; [now left|].
    right. exists (rev rest'), d. split; [reflexivity|assumption].
Qed.

Lemma trailing_good_suffix pre suf :
  all_good suf -> length suf <= trailing_good (pre ++ suf).
Proof.
  intros Hg. unfold trailing_good. rewrite rev_app_distr, <- length_rev.
  apply leading_good_prefix. now apply all_good_rev.
Qed.

Lemma trailing_good_le_length l : trailing_good l <= length l.
Proof.
  destruct (trailing_good_split l) as (pre & suf & -> & _ & <- & _).
  rewrite length_app. lia.
Qed.

Lemma trailing_good_last_not_good l d :
  status d <> good -> trailing_good (l ++ [d]) = 0.
Proof.
  intros Hd. rewrite trailing_good_snoc.
  apply is_good_false in Hd. now rewrite Hd.
Qed.

End StreakFacts.

(** ** The forward scan of the longest streak *)

Module LongestFacts.
Import StatsPanel StreakFacts.

Lemma state_snoc l d :
  longestStreak_state (l ++ [d]) = longestStreak_step (longestStreak_state l) d.
Proof. unfold longestStreak_state. now rewrite fold_left_app. Qed.

(** The running counter is the number of good events at the end. *)
Lemma temp_is_trailing l : snd (longestStreak_state l) = trailing_good l.
Proof.
  induction l as [|d l IH] using rev_ind; [reflexivity|].
  rewrite state_snoc, trailing_good_snoc, <- IH.
  destruct (longestStreak_state l) as [L T]. simpl.
  now destruct (is_good d).
Qed.

Lemma temp_le_longest l :
  snd (longestStreak_state l) <= fst (longestStreak_state l).
Proof.
  induction l as [|d l IH] using rev_ind; [simpl; lia|].
  rewrite state_snoc. destruct (longestStreak_state l) as [L T].
  simpl in *. destruct (is_good d); simpl; lia.
Qed.

Lemma longest_mono l d :
  fst (longestStreak_state l) <= fst (longestStreak_state (l ++ [d])).
Proof.
  rewrite state_snoc. destruct (longestStreak_state l) as [L T].
  simpl. destruct (is_good d); simpl; lia.
Qed.

(** Some block of consecutive good events has the recorded length. *)
Lemma longest_attained l :
  exists pre blk post,
    l = pre ++ blk ++ post /\ all_good blk /\
    length blk = fst (longestStreak_state l).
Proof.
  induction l as [|d l (pre & blk & post & Hl & Hg & Hlen)] using rev_ind.
  - exists [], [], []. repeat split. constructor.
  - assert (Hkeep : fst (longestStreak_state (l ++ [d])) = fst (longestStreak_state l)
                    -> exists pre blk post, l ++ [d] = pre ++ blk ++ post /\
                         all_good blk /\
                         length blk = fst (longestStreak_state (l ++ [d]))).
    { intros ->. exists pre, blk, (post ++ [d]). repeat split; auto.
      rewrite Hl at 1. now rewrite <- !app_assoc. }
    pose proof (temp_is_trailing l) as HT.
    pose proof (trailing_good_snoc l d) as Hsn.
    rewrite state_snoc in *.
    destruct (longestStreak_state l) as [L T]. simpl in HT, Hkeep, Hlen |- *.
    destruct (is_good d) eqn:Hd; simpl in *; [|now apply Hkeep].
    destruct (Nat.max_spec L (S T)) as [[Hlt HM]|[Hge HM]]; rewrite HM in *;
      [|now apply Hkeep].
    destruct (trailing_good_split (l ++ [d])) as (p & suf & Hsplit & Hsg & Hsl & _).
    exists p, suf, []. rewrite app_nil_r. repeat split; auto.
    rewrite Hsl, Hsn. now rewrite HT.
Qed.

(** No block of consecutive good events is longer. *)
Lemma longest_bound l :
  forall pre blk post,
    l = pre ++ blk ++ post -> all_good blk ->
    length blk <= fst (longestStreak_state l).
Proof.
  induction l as [|d l IH] using rev_ind; intros pre blk post Hl Hg.
  - symmetry in Hl. apply app_eq_nil in Hl as [_ Hl].
    apply app_eq_nil in Hl as [-> _]. simpl. lia.
  - destruct post as [|x post _] using rev_ind.
    + rewrite app_nil_r in Hl.
      pose proof (temp_le_longest (l ++ [d])) as Hle.
      rewrite temp_is_trailing, Hl in Hle. rewrite Hl.
      pose proof (trailing_good_suffix pre Hg). lia.
    + rewrite !app_assoc in Hl. apply app_inj_tail in Hl as [Hl _].
      rewrite <- app_assoc in Hl.
      pose proof (IH _ _ _ Hl Hg). pose proof (longest_mono l d). lia.
Qed.

Lemma longest_le_length l : fst (longestStreak_state l) <= length l.
Proof.
  destruct (longest_attained l) as (pre & blk & post & Hl & _ & <-).
  rewrite Hl, !length_app. lia.
Qed.

Lemma longestStreak_loop_state l :
  longestStreak_loop l = fst (longestStreak_state l).
Proof. reflexivity. Qed.

End LongestFacts.

(** ** What the statistics are, field by field *)

Module StatsFacts.
Import StatsPanel StreakFacts.

Lemma count_partition (l : list PostureData) :
  length (filter is_good l) + length (filter is_warning l)
  + length (filter is_bad l) + length (filter is_neutral l) = length l.
Proof.
  induction l as [|d l IH]; [reflexivity|].
  unfold is_good, is_warning, is_bad, is_neutral in *. simpl.
  destruct (status d); simpl; lia.
Qed.

Lemma half_le (n : nat) : n / 2 <= n.
Proof. apply Nat.Div0.div_le_upper_bound. lia. Qed.

(** The statistics are always produced (the streak loop stays in range),
    and the integer fields do not depend on the early return. *)
Lemma stats_fields data :
  exists s,
    stats data = Some s /\
    totalReadings s = length data /\
    goodPosture s = length (filter is_good data) /\
    warningPosture s = length (filter is_warning data) /\
    badPosture s = length (filter is_bad data) /\
    currentStreak s = trailing_good data /\
    longestStreak s = fst (longestStreak_state data) /\
    (data <> [] ->
     improvement s =
       JS.mul (JS.sub (goodFraction (skipn (length data / 2) data))
                      (goodFraction (firstn (length data / 2) data)))
              JS.lit_100).
Proof.
  destruct data as [|d data].
  - eexists. split; [reflexivity|]. simpl. repeat split; auto. congruence.
  - set (l := d :: data). unfold stats. fold l.
    rewrite currentStreak_loop_full.
    eexists. split; [reflexivity|]. cbn [totalReadings goodPosture
      warningPosture badPosture currentStreak longestStreak improvement].
    repeat split; auto. intros _.
    rewrite slice_upto by apply half_le.
    rewrite slice_from by apply half_le. reflexivity.
Qed.

(** A half of the split is empty only for buffers of at most one event:
    both halves for the empty buffer, the first half for a single event. *)
Lemma half_empty_iff (data : list PostureData) :
  firstn (length data / 2) data = [] \/ skipn (length data / 2) data = []
  <-> length data <= 1.
Proof.
  pose proof (half_le (length data)) as Hh.
  split.
  - intros [H|H]; apply (f_equal (@length _)) in H;
      rewrite ?length_firstn, ?length_skipn in H; cbn [length] in H.
    + rewrite Nat.min_l in H by lia.
      destruct (Nat.le_gt_cases (length data) 1) as [|Hgt]; [assumption|].
      assert (1 <= length data / 2) by (apply Nat.div_le_lower_bound; lia). lia.
    + assert (length data / 2 = length data) by lia.
      destruct (Nat.le_gt_cases (length data) 1) as [|Hgt]; [assumption|].
      assert (length data / 2 < length data) by (apply Nat.div_lt; lia). lia.
  - intros Hle. left.
    destruct data as [|d [|d' data]]; cbn [length] in Hle; [reflexivity|reflexivity|lia].
Qed.

End StatsFacts.

(** ** The confidence formula at the ends of the interval of draws *)

Example confidence_at_zero :
  JS.add (JS.mul JS.zero JS.lit_0_3) JS.lit_0_7 = JS.lit_0_7.
Proof. reflexivity. Qed.

Example confidence_at_smallest_draw :
  JS.add (JS.mul (S754_finite false 1 (-1074)) JS.lit_0_3) JS.lit_0_7 = JS.lit_0_7.
Proof. vm_compute. reflexivity. Qed.

(** The largest draw below 1 is [1 - 2^-53]; its confidence is again
    [1 - 2^-53], the largest binary64 number below 1. *)
Example confidence_at_largest_draw :
  JS.add (JS.mul (S754_finite false 9007199254740991 (-53)) JS.lit_0_3) JS.lit_0_7
  = S754_finite false 9007199254740991 (-53).
Proof. vm_compute. reflexivity. Qed.

(** * The claims of the specification *)

Section Claims.
Import Index StatsPanel.
Import StreakFacts LongestFacts StatsFacts WindowFacts.

(** C1 (fails on the code).  The specification reports a trend of 0 when a
    half of the split is empty.  After the first push the buffer holds
    exactly one event, the first half is empty, its good fraction is
    [0 / 0], and the improvement that the code returns is NaN, not 0. *)
Theorem C1_single_event_improvement_is_NaN :
  forall d : PostureData,
    postureData (run [d]) = [d] /\
    firstn (length [d] / 2) [d] = [] /\
    exists s, stats (postureData (run [d])) = Some s /\
              totalReadings s = 1 /\
              improvement s = JS.NaN /\
              improvement s <> JS.zero.
Proof.
  intros d. split; [reflexivity|]. split; [reflexivity|].
  change (postureData (run [d])) with [d].
  destruct (stats_fields [d]) as (s & Hs & Ht & _ & _ & _ & _ & _ & Himp).
  exists s. split; [exact Hs|]. split; [exact Ht|].
  assert (H : improvement s = JS.NaN).
  { rewrite Himp by discriminate.
    change (length [d] / 2) with 0. cbn [firstn skipn].
    change (goodFraction []) with JS.NaN.
    destruct (goodFraction [d]); reflexivity. }
  split; [exact H|]. rewrite H. discriminate.
Qed.

(** C2 (as stated, refuted).  After a single push of a [neutral] event the
    snapshot has total 1 while its category counts (good, warning, bad: the
    snapshot has no count for neutral) sum to 0. *)
Lemma C2_counterexample :
  exists s, stats (postureData (run [neutral_event])) = Some s /\
            totalReadings s = 1 /\
            goodPosture s + warningPosture s + badPosture s = 0 /\
            goodPosture s + warningPosture s + badPosture s <> totalReadings s.
Proof.
  eexists. split; [vm_compute; reflexivity|].
  cbn. repeat split; auto.
Qed.

(** C2 (amended).  For every buffer, the three category counts of the
    snapshot plus the number of [neutral] events of the buffer equal the
    total; so the counts of the snapshot sum to the total exactly when the
    buffer holds no [neutral] event. *)
Theorem C2_counts_and_neutral_sum_to_total :
  forall data : list PostureData,
    exists s, stats data = Some s /\
      goodPosture s + warningPosture s + badPosture s
        + length (filter is_neutral data) = totalReadings s /\
      (goodPosture s + warningPosture s + badPosture s = totalReadings s
       <-> Forall (fun d => status d <> neutral) data).
Proof.
  intros data.
  destruct (stats_fields data) as (s & Hs & Ht & Hg & Hw & Hb & _).
  exists s. split; [exact Hs|].
  rewrite Ht, Hg, Hw, Hb. pose proof (count_partition data) as Hsum.
  split; [exact Hsum|].
  assert (Hn : length (filter is_neutral data) = 0
               <-> Forall (fun d => status d <> neutral) data).
  { clear. induction data as [|d data IH]; simpl.
    - split; [constructor|reflexivity].
    - unfold is_neutral at 1.
      destruct (status d) eqn:Hd; simpl; split; intros H;
        try discriminate;
        try (constructor; [congruence|now apply IH]);
        try (inversion H; subst; now apply IH);
        try (inversion H; subst; congruence). }
  rewrite <- Hn. lia.
Qed.

(** C3.  After more than 50 pushes from the empty buffer, the buffer has
    length 50 (and so has the snapshot's total) and holds exactly the last
    50 pushed events in their original order. *)
Theorem C3_window_keeps_last_50 :
  forall evs : list PostureData,
    50 < length evs ->
    length (postureData (run evs)) = 50 /\
    postureData (run evs) = skipn (length evs - 50) evs /\
    (exists older, evs = older ++ postureData (run evs)) /\
    (exists s, stats (postureData (run evs)) = Some s /\ totalReadings s = 50).
Proof.
  intros evs Hk.
  assert (Hlen : length (postureData (run evs)) = 50)
    by (rewrite run_length; lia).
  split; [exact Hlen|]. split; [apply run_window|]. split.
  - exists (firstn (length evs - 50) evs).
    rewrite run_window. now rewrite firstn_skipn.
  - destruct (stats_fields (postureData (run evs))) as (s & Hs & Ht & _).
    exists s. split; [exact Hs|congruence].
Qed.

Lemma C3_window_keeps_last_50_witness :
  50 < length session_51 /\
  postureData (run session_51) = skipn 1 session_51.
Proof.
  assert (H : 50 < length session_51) by (vm_compute; lia).
  split; [exact H|].
  exact (proj1 (proj2 (C3_window_keeps_last_50 session_51 H))).
Defined.

(** C4.  When both halves of the split at [floor(total/2)] are non-empty,
    the improvement of the snapshot is the trend of the specification,
    (second-half good rate - first-half good rate) * 100; the first half
    has [floor(total/2)] elements, one fewer than the second half when the
    total is odd.  Pushing [bad, bad, good, good, good] gives exactly 100. *)
Theorem C4_trend_split :
  (forall data : list PostureData,
     firstn (length data / 2) data <> [] ->
     skipn (length data / 2) data <> [] ->
     exists s, stats data = Some s /\
       improvement s = trend_spec data /\
       length (firstn (length data / 2) data) = length data / 2 /\
       length (skipn (length data / 2) data) = length data - length data / 2 /\
       (Nat.odd (length data) = true ->
        length (skipn (length data / 2) data)
        = S (length (firstn (length data / 2) data)))) /\
  (forall d1 d2 d3 d4 d5 : PostureData,
     exists s,
       stats (postureData (run [with_status bad d1; with_status bad d2;
                                with_status good d3; with_status good d4;
                                with_status good d5])) = Some s /\
       totalReadings s = 5 /\
       improvement s = JS.of_nat 100).
Proof.
  split.
  - intros data H1 H2.
    destruct (stats_fields data) as (s & Hs & _ & _ & _ & _ & _ & _ & Himp).
    exists s. split; [exact Hs|].
    assert (Hne : data <> []) by (intros ->; now apply H2).
    split; [now rewrite Himp|].
    pose proof (half_le (length data)) as Hh.
    rewrite length_firstn, length_skipn.
    split; [lia|]. split; [lia|].
    intros Hodd. rewrite Nat.min_l by lia.
    apply Nat.odd_spec in Hodd as [k Hk]. rewrite Hk.
    replace (2 * k + 1) with (1 + k * 2) by lia.
    rewrite Nat.div_add by lia. simpl (1 / 2). lia.
  - intros d1 d2 d3 d4 d5.
    match goal with |- context [stats ?b] =>
      destruct (stats_fields b) as (s & Hs & Ht & _ & _ & _ & _ & _ & Himp)
    end.
    exists s. split; [exact Hs|]. split; [exact Ht|].
    rewrite Himp by discriminate. reflexivity.
Qed.

Lemma C4_trend_split_witness :
  exists s, stats (map (sample_event good) (seq 0 3)) = Some s /\
            improvement s = trend_spec (map (sample_event good) (seq 0 3)).
Proof.
  destruct (proj1 C4_trend_split (map (sample_event good) (seq 0 3)))
    as (s & Hs & Himp & _).
  - simpl. discriminate.
  - simpl. discriminate.
  - exists s. split; [exact Hs|exact Himp].
Defined.

(** C5.  The current streak of the snapshot is the length of the maximal
    all-good suffix of the buffer: the buffer ends with that many good
    events, the event before them (if any) is not good, and no all-good
    suffix is longer.  It is 0 for the empty buffer and when the most
    recent event is not good. *)
Theorem C5_currentStreak_is_maximal_good_suffix :
  forall data : list PostureData,
    exists s, stats data = Some s /\
      (exists pre suf,
         data = pre ++ suf /\ all_good suf /\ currentStreak s = length suf /\
         (pre = [] \/ exists pre' d, pre = pre' ++ [d] /\ status d <> good)) /\
      (forall pre suf,
         data = pre ++ suf -> all_good suf -> length suf <= currentStreak s) /\
      (data = [] -> currentStreak s = 0) /\
      (forall older d,
         data = older ++ [d] -> status d <> good -> currentStreak s = 0).
Proof.
  intros data.
  destruct (stats_fields data) as (s & Hs & _ & _ & _ & _ & Hc & _).
  exists s. split; [exact Hs|]. rewrite Hc. repeat split.
  - destruct (trailing_good_split data) as (pre & suf & Hd & Hg & Hl & Hp).
    exists pre, suf. repeat split; auto.
  - intros pre suf -> Hg. now apply trailing_good_suffix.
  - now intros ->.
  - intros older d -> Hd. now apply trailing_good_last_not_good.
Qed.

Lemma C5_currentStreak_is_maximal_good_suffix_witness :
  exists s,
    stats [sample_event bad 0; sample_event good 1; sample_event good 2] = Some s /\
    2 <= currentStreak s.
Proof.
  destruct (C5_currentStreak_is_maximal_good_suffix
              [sample_event bad 0; sample_event good 1; sample_event good 2])
    as (s & Hs & _ & Hmax & _).
  exists s. split; [exact Hs|].
  apply (Hmax [sample_event bad 0] [sample_event good 1; sample_event good 2]).
  - reflexivity.
  - repeat constructor.
Defined.

(** C6.  The longest streak of the snapshot is the maximum length of a
    block of consecutive good events of the buffer: some block has that
    length and no block is longer; it is 0 when no event is good.  Pushing
    [good, good, warning, good, good, good] gives a current streak of 3 and
    a longest streak of 3. *)
Theorem C6_longestStreak_is_maximal_good_run :
  (forall data : list PostureData,
     exists s, stats data = Some s /\
       (exists pre blk post,
          data = pre ++ blk ++ post /\ all_good blk /\
          length blk = longestStreak s) /\
       (forall pre blk post,
          data = pre ++ blk ++ post -> all_good blk ->
          length blk <= longestStreak s) /\
       ((forall d, In d data -> status d <> good) -> longestStreak s = 0)) /\
  (forall d1 d2 d3 d4 d5 d6 : PostureData,
     exists s,
       stats (postureData (run [with_status good d1; with_status good d2;
                                with_status warning d3; with_status good d4;
                                with_status good d5; with_status good d6]))
         = Some s /\
       currentStreak s = 3 /\ longestStreak s = 3).
Proof.
  split.
  - intros data.
    destruct (stats_fields data) as (s & Hs & _ & _ & _ & _ & _ & Hl & _).
    exists s. split; [exact Hs|]. rewrite Hl. repeat split.
    + apply longest_attained.
    + intros pre blk post. apply longest_bound.
    + intros Hnone.
      destruct (longest_attained data) as (pre & blk & post & Hd & Hg & <-).
      destruct blk as [|x blk]; [reflexivity|].
      exfalso. apply (Hnone x).
      * rewrite Hd. apply in_or_app. right. now left.
      * now inversion Hg.
  - intros d1 d2 d3 d4 d5 d6.
    match goal with |- context [stats ?b] =>
      destruct (stats_fields b) as (s & Hs & _ & _ & _ & _ & Hc & Hl & _)
    end.
    exists s. split; [exact Hs|]. rewrite Hc, Hl. split; reflexivity.
Qed.

Lemma C6_longestStreak_is_maximal_good_run_witness :
  exists s,
    stats [sample_event good 0; sample_event good 1; sample_event bad 2;
           sample_event good 3] = Some s /\
    2 <= longestStreak s.
Proof.
  destruct (proj1 C6_longestStreak_is_maximal_good_run
              [sample_event good 0; sample_event good 1; sample_event bad 2;
               sample_event good 3])
    as (s & Hs & _ & Hmax & _).
  exists s. split; [exact Hs|].
  apply (Hmax [] [sample_event good 0; sample_event good 1]
              [sample_event bad 2; sample_event good 3]).
  - reflexivity.
  - repeat constructor.
Defined.

(** C7.  For every buffer, and so for every reachable one,
    0 <= currentStreak <= longestStreak <= total. *)
Theorem C7_streak_bounds :
  forall data : list PostureData,
    exists s, stats data = Some s /\
      0 <= currentStreak s /\
      currentStreak s <= longestStreak s /\
      longestStreak s <= totalReadings s.
Proof.
  intros data.
  destruct (stats_fields data) as (s & Hs & Ht & _ & _ & _ & Hc & Hl & _).
  exists s. split; [exact Hs|]. rewrite Ht, Hc, Hl.
  pose proof (temp_le_longest data) as H. rewrite temp_is_trailing in H.
  pose proof (longest_le_length data). lia.
Qed.

(** C8.  Before any push the buffer is empty and the snapshot is produced
    (no error) with total 0, every count 0, average confidence 0, both
    streaks 0 and improvement 0. *)
Theorem C8_empty_defaults :
  stats (postureData initial)
  = Some {| totalReadings := 0; goodPosture := 0; warningPosture := 0;
            badPosture := 0; averageConfidence := JS.zero;
            currentStreak := 0; longestStreak := 0;
            improvement := JS.zero |}.
Proof. reflexivity. Qed.

(** C9.  Whatever the activity and the random draws, the mock classifier
    returns good, warning or bad, and never neutral. *)
Theorem C9_analyzePosture_never_neutral :
  forall (activity : ActivityType) (random random2 : JS.number) (now : Z),
    let d := VideoCapture.analyzePosture activity random random2 now in
    (status d = good \/ status d = warning \/ status d = bad) /\
    status d <> neutral.
Proof.
  intros activity random random2 now. unfold VideoCapture.analyzePosture.
  destruct activity;
    repeat match goal with |- context [if ?c then _ else _] => destruct c end;
    cbn; split; auto; discriminate.
Qed.

(** C10.  For every activity and every draw [random2] of the half-open
    interval [0, 1) (a binary64 number with [0 <= random2 < 1]), the
    confidence returned by [analyzePosture] is [random2 * 0.3 + 0.7], it
    satisfies [0.7 <= confidence < 1], and so lies in the range [0, 1] of
    the data model: nothing has to be clamped. *)
Theorem C10_confidence_range :
  forall (activity : ActivityType) (random random2 : JS.number) (now : Z),
    JS.valid random2 = true ->
    JS.geb random2 JS.zero = true ->
    JS.ltb random2 JS.lit_1 = true ->
    let c := confidence (VideoCapture.analyzePosture activity random random2 now) in
    c = JS.add (JS.mul random2 JS.lit_0_3) JS.lit_0_7 /\
    JS.geb c JS.lit_0_7 = true /\
    JS.ltb c JS.lit_1 = true /\
    JS.geb c JS.zero = true /\
    JS.leb c JS.lit_1 = true.
Proof.
  intros activity random random2 now Hvalid Hge Hlt c.
  assert (Hc : c = JS.add (JS.mul random2 JS.lit_0_3) JS.lit_0_7).
  { unfold c, VideoCapture.analyzePosture.
    destruct activity;
      repeat match goal with |- context [if ?b then _ else _] => destruct b end;
      reflexivity. }
  split; [exact Hc|]. rewrite Hc. clear c Hc.
  destruct random2 as [s|s| |s m e].
  - (* a zero: the product is a zero and the sum is 0.7 itself *)
    destruct s; repeat split; reflexivity.
  - destruct s; discriminate.
  - discriminate.
  - destruct s; [discriminate|].
    assert (He : (e <= -53)%Z).
    { unfold JS.ltb, SFltb, JS.lit_1 in Hlt. cbn [SFcompare] in Hlt.
      rewrite Binary64Facts.compare_cont_Eq in Hlt.
      destruct (Z.compare_spec e (-52)) as [Heq|Hlt'|Hgt]; [|lia|discriminate].
      destruct (Z.compare_spec (Zpos m) 4503599627370496) as [Hm|Hm|Hm];
        try discriminate.
      exfalso. subst e.
      unfold JS.valid, valid_binary, bounded, canonical_mantissa in Hvalid.
      apply andb_true_iff in Hvalid as [Hcan _]. apply Z.eqb_eq in Hcan.
      rewrite Binary64Facts.fexp_eq in Hcan.
      pose proof (Binary64Facts.digits2_pos_bounds m) as [Hlo _].
      assert (Hp : (2 ^ 52 <= 2 ^ (Zpos (digits2_pos m) - 1))%Z)
        by (apply Z.pow_le_mono_r; lia).
      change (2 ^ 52)%Z with 4503599627370496%Z in Hp. lia. }
    assert (Hsum : exists mc,
               JS.add (JS.mul (S754_finite false m e) JS.lit_0_3) JS.lit_0_7
               = S754_finite false mc (-53) /\
               (6305039478318694 <= Zpos mc <= 9007199254740991)%Z).
    { unfold JS.add, JS.mul.
      destruct (Binary64Facts.mul_lit_0_3_bounds m e Hvalid He)
        as [->|(mp & ep & -> & Hep & Hmp)].
      - exists 6305039478318694%positive. split; [reflexivity|lia].
      - exact (Binary64Facts.add_lit_0_7_bounds mp ep Hep Hmp). }
    destruct Hsum as (mc & -> & Hlo & Hhi).
    unfold JS.geb, JS.ltb, JS.leb, SFleb, SFltb, JS.lit_0_7, JS.lit_1, JS.zero.
    cbn [SFcompare].
    change (-53 ?= -53)%Z with Eq. change (-53 ?= -52)%Z with Lt. cbv iota.
    rewrite Binary64Facts.compare_cont_Eq.
    destruct (Z.compare_spec 6305039478318694 (Zpos mc)) as [Heq|Hl|Hg];
      repeat split; try reflexivity. lia.
Qed.

Lemma C10_confidence_range_witness :
  JS.geb (confidence (VideoCapture.analyzePosture squat JS.lit_0_2 JS.lit_0_5 0))
         JS.lit_0_7 = true /\
  JS.ltb (confidence (VideoCapture.analyzePosture squat JS.lit_0_2 JS.lit_0_5 0))
         JS.lit_1 = true.
Proof.
  destruct (C10_confidence_range squat JS.lit_0_2 JS.lit_0_5 0
              eq_refl eq_refl eq_refl) as (_ & Hlo & Hhi & _).
  split; [exact Hlo|exact Hhi].
Defined.

End Claims.

(** * Further properties of the code *)

(** ** Pushes and the window *)

Module PushFacts.
Local Unset Implicit Arguments.
Import Index StatsPanel StreakFacts LongestFacts StatsFacts WindowFacts.

Lemma leading_good_firstn l : forall j,
  leading_good (firstn j l) = Nat.min (leading_good l) j.
Proof.
  induction l as [|d l IH]; intros j; [destruct j; reflexivity|].
  destruct j as [|j]; cbn [firstn leading_good].
  - destruct (is_good d); [now rewrite Nat.min_0_r|reflexivity].
  - destruct (is_good d); [|reflexivity].
    rewrite IH. reflexivity.
Qed.

Lemma trailing_good_skipn l k :
  trailing_good (skipn k l) = Nat.min (trailing_good l) (length l - k).
Proof.
  unfold trailing_good. rewrite <- leading_good_firstn.
  rewrite firstn_rev. f_equal.
  destruct (Nat.le_gt_cases k (length l)) as [Hle|Hgt].
  - f_equal. f_equal. lia.
  - replace (length l - (length l - k)) with (length l) by lia.
    now rewrite !skipn_all2 by lia.
Qed.

Lemma window_snoc evs d :
  postureData (run (evs ++ [d])) = skipn (length evs - 49) evs ++ [d].
Proof.
  rewrite run_window, length_app. cbn [length].
  rewrite skipn_app.
  replace (length evs + 1 - 50) with (length evs - 49) by lia.
  replace (length evs - 49 - length evs) with 0 by lia. reflexivity.
Qed.

(** X1.  The buffer holds [min(k, 50)] events after [k] pushes, and as long
    as at most 50 events were pushed it holds all of them, in order:
    nothing is evicted before the 51st push. *)
Theorem X1_window_below_capacity :
  forall evs : list PostureData,
    length (postureData (run evs)) = Nat.min (length evs) 50 /\
    (length evs <= 50 -> postureData (run evs) = evs).
Proof.
  intros evs. split; [apply run_length|].
  intros Hle. rewrite run_window.
  replace (length evs - 50) with 0 by lia. reflexivity.
Qed.

Lemma X1_window_below_capacity_witness :
  postureData (run [sample_event good 0; sample_event bad 1])
  = [sample_event good 0; sample_event bad 1].
Proof.
  apply (proj2 (X1_window_below_capacity [sample_event good 0; sample_event bad 1])).
  cbn [length]. lia.
Defined.


(** X2.  [currentPosture] is empty before the first push and afterwards is
    the event pushed last, which is also the last element of the buffer,
    behind at most 49 older events. *)
Theorem X2_currentPosture_is_last :
  currentPosture (run []) = None /\
  forall (evs : list PostureData) (d : PostureData),
    currentPosture (run (evs ++ [d])) = Some d /\
    exists older, postureData (run (evs ++ [d])) = older ++ [d] /\ length older <= 49.
Proof.
  split; [reflexivity|]. intros evs d. split.
  - now rewrite run_snoc.
  - exists (skipn (length evs - 49) evs). split; [apply window_snoc|].
    rewrite length_skipn. lia.
Qed.

Lemma hd_error_skipn (l : list PostureData) :
  forall j, hd_error (skipn j l) = nth_error l j.
Proof.
  induction l as [|d l IH]; intros [|j]; try reflexivity. apply IH.
Qed.

(** X3.  The first element of the buffer, whose timestamp the panel uses for
    the minutes of monitoring, is the oldest event still retained: the
    first event pushed while at most 50 were pushed, the event number
    [k - 50] (counting from 0) after [k > 50] pushes. *)
Theorem X3_oldest_retained_reading :
  forall evs : list PostureData,
    hd_error (postureData (run evs)) = nth_error evs (length evs - 50).
Proof.
  intros evs. rewrite run_window. apply hd_error_skipn.
Qed.


(** X4.  Pushing a good event raises the current streak of the snapshot by
    one, up to the window size 50 where it stays; pushing any other event
    resets it to 0. *)
Theorem X4_currentStreak_after_push :
  forall (evs : list PostureData) (d : PostureData),
    exists s s',
      stats (postureData (run evs)) = Some s /\
      stats (postureData (run (evs ++ [d]))) = Some s' /\
      (status d = good -> currentStreak s' = Nat.min (S (currentStreak s)) 50) /\
      (status d <> good -> currentStreak s' = 0).
Proof.
  intros evs d.
  destruct (stats_fields (postureData (run evs))) as (s & Hs & _ & _ & _ & _ & Hc & _).
  destruct (stats_fields (postureData (run (evs ++ [d]))))
    as (s' & Hs' & _ & _ & _ & _ & Hc' & _).
  exists s, s'. split; [exact Hs|]. split; [exact Hs'|].
  rewrite Hc, Hc', window_snoc, run_window, trailing_good_snoc, !trailing_good_skipn.
  pose proof (trailing_good_le_length evs) as Hle.
  split; intros Hd.
  - apply is_good_iff in Hd. rewrite Hd. lia.
  - apply is_good_false in Hd. now rewrite Hd.
Qed.
End PushFacts.

(** ** Counts and streaks of a snapshot *)

Module SnapshotFacts.
Local Unset Implicit Arguments.
Import Index StatsPanel StreakFacts LongestFacts StatsFacts WindowFacts PushFacts.

Lemma filter_all_good blk : all_good blk -> filter is_good blk = blk.
Proof.
  induction 1 as [|d blk Hd _ IH]; [reflexivity|].
  simpl. apply is_good_iff in Hd. rewrite Hd. now rewrite IH.
Qed.

Lemma good_block_le_count pre blk post :
  all_good blk -> length blk <= length (filter is_good (pre ++ blk ++ post)).
Proof.
  intros Hg. rewrite !filter_app, !length_app, (filter_all_good blk Hg). lia.
Qed.

Lemma filter_length_le (f : PostureData -> bool) l : length (filter f l) <= length l.
Proof. induction l as [|d l IH]; simpl; [lia|]. destruct (f d); simpl; lia. Qed.

Lemma good_count_pos_in l :
  0 < length (filter is_good l) ->
  exists pre d post, l = pre ++ [d] ++ post /\ status d = good.
Proof.
  intros H. destruct (filter is_good l) as [|d fl] eqn:Hf; [simpl in H; lia|].
  assert (Hin : In d (filter is_good l)) by (rewrite Hf; now left).
  apply filter_In in Hin as [Hin Hd]. apply in_split in Hin as (pre & post & ->).
  exists pre, d, post. split; [reflexivity|now apply is_good_iff].
Qed.

(** X5.  In every snapshot the longest streak is at most the count of good
    events, which is at most the total; the longest streak is 0 exactly
    when no event is good, and the current streak equals the total exactly
    when every event is good. *)
Theorem X5_streaks_and_good_count :
  forall data : list PostureData,
    exists s, stats data = Some s /\
      longestStreak s <= goodPosture s /\
      goodPosture s <= totalReadings s /\
      (longestStreak s = 0 <-> goodPosture s = 0) /\
      (currentStreak s = totalReadings s <-> all_good data).
Proof.
  intros data.
  destruct (stats_fields data) as (s & Hs & Ht & Hg & _ & _ & Hc & Hl & _).
  exists s. split; [exact Hs|]. rewrite Ht, Hg, Hc, Hl.
  assert (Hlg : fst (longestStreak_state data) <= length (filter is_good data)).
  { destruct (longest_attained data) as (pre & blk & post & Hd & Hgood & <-).
    rewrite Hd. now apply good_block_le_count. }
  split; [exact Hlg|]. split; [apply filter_length_le|]. split; [split|split].
  - intros H0. destruct (Nat.eq_0_gt_0_cases (length (filter is_good data))) as [|Hpos];
      [assumption|].
    destruct (good_count_pos_in data Hpos) as (pre & d & post & Hd & Hgd).
    assert (length [d] <= fst (longestStreak_state data)).
    { apply (@longest_bound data pre [d] post Hd). constructor; [assumption|constructor]. }
    simpl in *. lia.
  - lia.
  - intros Heq. destruct (trailing_good_split data) as (pre & suf & Hd & Hg' & Hlen & _).
    assert (pre = []).
    { apply length_zero_iff_nil. rewrite <- Hlen in Heq.
      rewrite Hd, length_app in Heq. lia. }
    subst pre. now rewrite Hd.
  - intros Hall. pose proof (@trailing_good_suffix [] data Hall) as H1. simpl in H1.
    pose proof (trailing_good_le_length data). lia.
Qed.

(** *** Dependence on the pattern of good events only *)

Lemma good_count_pattern l : forall l',
  map is_good l = map is_good l' ->
  length (filter is_good l) = length (filter is_good l').
Proof.
  induction l as [|d l IH]; intros [|d' l'] H; try discriminate; [reflexivity|].
  simpl in *. injection H as Hd Hl. rewrite Hd. destruct (is_good d'); simpl; auto.
Qed.

Lemma leading_good_pattern l : forall l',
  map is_good l = map is_good l' -> leading_good l = leading_good l'.
Proof.
  induction l as [|d l IH]; intros [|d' l'] H; try discriminate; [reflexivity|].
  simpl in *. injection H as Hd Hl. rewrite Hd. destruct (is_good d'); auto.
Qed.

Lemma trailing_good_pattern l l' :
  map is_good l = map is_good l' -> trailing_good l = trailing_good l'.
Proof.
  intros H. apply leading_good_pattern. rewrite !map_rev. now f_equal.
Qed.

Lemma longest_state_pattern l : forall l' st,
  map is_good l = map is_good l' ->
  fold_left longestStreak_step l st = fold_left longestStreak_step l' st.
Proof.
  induction l as [|d l IH]; intros [|d' l'] st H; try discriminate; [reflexivity|].
  simpl in *. injection H as Hd Hl. unfold longestStreak_step at 2 4.
  destruct st as [L T]. rewrite Hd. now apply IH.
Qed.

Lemma goodFraction_pattern l l' :
  map is_good l = map is_good l' -> goodFraction l = goodFraction l'.
Proof.
  intros H. unfold goodFraction. rewrite (good_count_pattern l l' H).
  assert (Hlen : length l = length l')
    by (rewrite <- (length_map is_good l), H; apply length_map).
  now rewrite Hlen.
Qed.

(** X6.  Total, good count, both streaks and the improvement depend only on
    which events are good: two buffers that agree position by position on
    "is it good" have the same values, whatever the other categories,
    confidences, warnings and timestamps are. *)
Theorem X6_snapshot_depends_on_good_pattern :
  forall data data' : list PostureData,
    map is_good data = map is_good data' ->
    exists s s',
      stats data = Some s /\ stats data' = Some s' /\
      totalReadings s = totalReadings s' /\
      goodPosture s = goodPosture s' /\
      currentStreak s = currentStreak s' /\
      longestStreak s = longestStreak s' /\
      improvement s = improvement s'.
Proof.
  intros data data' H.
  assert (Hlen : length data = length data')
    by (rewrite <- (length_map is_good data), H; apply length_map).
  destruct (stats_fields data) as (s & Hs & Ht & Hg & _ & _ & Hc & Hl & Hi).
  destruct (stats_fields data') as (s' & Hs' & Ht' & Hg' & _ & _ & Hc' & Hl' & Hi').
  exists s, s'. split; [exact Hs|]. split; [exact Hs'|].
  rewrite Ht, Ht', Hg, Hg', Hc, Hc', Hl, Hl'.
  split; [exact Hlen|]. split; [now apply good_count_pattern|].
  split; [now apply trailing_good_pattern|].
  split; [unfold longestStreak_state; now rewrite (longest_state_pattern data data' (0, 0) H)|].
  destruct data as [|d data], data' as [|d' data']; try discriminate.
  - rewrite Hs in *. rewrite Hs' in *. cbn in Hs, Hs'.
    injection Hs as <-. injection Hs' as <-. reflexivity.
  - rewrite Hi, Hi' by discriminate. rewrite <- Hlen.
    rewrite (goodFraction_pattern (skipn (length (d :: data) / 2) (d :: data))
                                  (skipn (length (d :: data) / 2) (d' :: data'))),
            (goodFraction_pattern (firstn (length (d :: data) / 2) (d :: data))
                                  (firstn (length (d :: data) / 2) (d' :: data')));
      [reflexivity| |].
    + now rewrite <- !firstn_map, H.
    + now rewrite <- !skipn_map, H.
Qed.

Lemma X6_snapshot_depends_on_good_pattern_witness :
  exists s s',
    stats [sample_event warning 0; sample_event good 1] = Some s /\
    stats [sample_event bad 5; sample_event good 7] = Some s' /\
    improvement s = improvement s'.
Proof.
  destruct (X6_snapshot_depends_on_good_pattern
              [sample_event warning 0; sample_event good 1]
              [sample_event bad 5; sample_event good 7] eq_refl)
    as (s & s' & H1 & H2 & _ & _ & _ & _ & Hi).
  exists s, s'. split; [exact H1|]. split; [exact H2|exact Hi].
Defined.

End SnapshotFacts.

(** ** The longest streak under a push *)

Module BestStreakFacts.
Local Unset Implicit Arguments.
Import Index StatsPanel StreakFacts LongestFacts StatsFacts WindowFacts PushFacts.




End BestStreakFacts.

(** ** Comparisons with the thresholds of the classifier *)

Module ClassifierFacts.
Local Unset Implicit Arguments.
Import Index StatsPanel StreakFacts LongestFacts StatsFacts WindowFacts.
Local Open Scope Z_scope.

(** [x < y] on two positive finite numbers compares exponents first and
    mantissas next. *)
Lemma ltb_finite_pos (m m' : positive) (e e' : Z) :
  JS.ltb (S754_finite false m e) (S754_finite false m' e') = true
  <-> e < e' \/ (e = e' /\ Zpos m < Zpos m').
Proof.
  unfold JS.ltb, SFltb. cbn [SFcompare].
  rewrite Binary64Facts.compare_cont_Eq.
  destruct (Z.compare_spec e e'); destruct (Z.compare_spec (Zpos m) (Zpos m'));
    split; intros H'; try discriminate; try reflexivity; try lia.
Qed.

Lemma ltb_below_larger_literal (r : JS.number) (m m' : positive) (e e' : Z) :
  e < e' \/ (e = e' /\ Zpos m < Zpos m') ->
  JS.ltb r (S754_finite false m e) = true ->
  JS.ltb r (S754_finite false m' e') = true.
Proof.
  intros Hlt Hr. destruct r as [s|s| |s mr er]; try discriminate.
  - reflexivity.
  - destruct s; [reflexivity|discriminate].
  - destruct s; [reflexivity|].
    apply ltb_finite_pos in Hr. apply ltb_finite_pos. lia.
Qed.
End ClassifierFacts.

(** ** The tables of percentages and improvements of a window *)

Module TableFacts.
Local Unset Implicit Arguments.
Import Index StatsPanel StatsPanelView StatsFacts WindowFacts SnapshotFacts.

Lemma number_eqb_eq (x y : JS.number) : number_eqb x y = true <-> x = y.
Proof.
  destruct x as [s|s| |s m e], y as [s'|s'| |s' m' e']; simpl;
    try (split; [discriminate|intros H; discriminate]);
    try (split; reflexivity).
  - rewrite Bool.eqb_true_iff. split; [now intros ->|now intros [= ->]].
  - rewrite Bool.eqb_true_iff. split; [now intros ->|now intros [= ->]].
  - rewrite !andb_true_iff, Bool.eqb_true_iff, Pos.eqb_eq, Z.eqb_eq.
    split; [now intros [[-> ->] ->]|now intros [= -> -> ->]].
Qed.

Lemma percent_table : forallb percent_check window_counts = true.
Proof. vm_compute. reflexivity. Qed.

Lemma score_table : forallb score_check window_counts = true.
Proof. vm_compute. reflexivity. Qed.

Lemma trend_table : forallb trend_check window_splits = true.
Proof. vm_compute. reflexivity. Qed.

Lemma in_window_counts (g n : nat) :
  1 <= n <= 50 -> g <= n -> In (g, n) window_counts.
Proof.
  intros Hn Hg. unfold window_counts. apply in_flat_map.
  exists n. split; [apply in_seq; lia|].
  apply in_map_iff. exists g. split; [reflexivity|apply in_seq; lia].
Qed.

Lemma in_window_splits (n g1 g2 : nat) :
  2 <= n <= 50 -> g1 <= n / 2 -> g2 <= n - n / 2 -> In (n, g1, g2) window_splits.
Proof.
  intros Hn Hg1 Hg2. unfold window_splits. apply in_flat_map.
  exists n. split; [apply in_seq; lia|].
  apply in_flat_map. exists g1. split; [apply in_seq; lia|].
  apply in_map_iff. exists g2. split; [reflexivity|apply in_seq; lia].
Qed.

Lemma percent_checked (g n : nat) :
  1 <= n <= 50 -> g <= n -> percent_check (g, n) = true.
Proof.
  intros Hn Hg. pose proof percent_table as H. rewrite forallb_forall in H.
  apply H. now apply in_window_counts.
Qed.

Lemma score_checked (g n : nat) :
  1 <= n <= 50 -> g <= n -> score_check (g, n) = true.
Proof.
  intros Hn Hg. pose proof score_table as H. rewrite forallb_forall in H.
  apply H. now apply in_window_counts.
Qed.

Lemma trend_checked (n g1 g2 : nat) :
  2 <= n <= 50 -> g1 <= n / 2 -> g2 <= n - n / 2 -> trend_check (n, g1, g2) = true.
Proof.
  intros Hn Hg1 Hg2. pose proof trend_table as H. rewrite forallb_forall in H.
  apply H. now apply in_window_splits.
Qed.

(** The improvement of a buffer of at least two events, from the counts of
    its halves. *)
Lemma improvement_of_counts (data : list PostureData) (s : Stats) :
  stats data = Some s -> data <> [] ->
  improvement s =
    trend_of_counts (length (filter is_good (firstn (length data / 2) data)))
                    (length data / 2)
                    (length (filter is_good (skipn (length data / 2) data)))
                    (length data - length data / 2).
Proof.
  intros Hs Hne.
  destruct (stats_fields data) as (s0 & Hs0 & _ & _ & _ & _ & _ & _ & Hi).
  rewrite Hs in Hs0. injection Hs0 as <-. rewrite Hi by assumption.
  unfold trend_of_counts, goodFraction.
  rewrite length_firstn, length_skipn, Nat.min_l by apply half_le. reflexivity.
Qed.

End TableFacts.

(** ** What the statistics panel displays *)

Module ViewFacts.
Local Unset Implicit Arguments.
Import Index StatsPanel StatsPanelView StatsFacts WindowFacts SnapshotFacts TableFacts StreakFacts.

Lemma window_length_le (evs : list PostureData) :
  length (postureData (run evs)) <= 50.
Proof. rewrite run_length. lia. Qed.

Lemma all_good_iff_count (l : list PostureData) :
  length (filter is_good l) = length l <-> all_good l.
Proof.
  induction l as [|d l IH]; simpl.
  - split; [constructor|reflexivity].
  - pose proof (filter_length_le is_good l) as Hle.
    destruct (is_good d) eqn:Hd; simpl; split; intros H.
    + constructor; [now apply is_good_iff|]. apply IH. lia.
    + inversion H; subst. f_equal. now apply IH.
    + lia.
    + inversion H; subst. apply is_good_iff in H2. congruence.
Qed.

(** X8.  For every buffer the application can reach, the improvement is NaN
    exactly when the buffer holds one event; otherwise it lies between
    -100 and 100.  With one event the test [improvement >= 0] is false, so
    the panel shows the downward trend. *)
Theorem X8_improvement_NaN_only_for_single_event :
  forall evs : list PostureData,
    exists s, stats (postureData (run evs)) = Some s /\
      (improvement s = JS.NaN <-> length (postureData (run evs)) = 1) /\
      (length (postureData (run evs)) <> 1 ->
       JS.geb (improvement s) (JS.of_Z (-100)) = true /\
       JS.leb (improvement s) JS.lit_100 = true) /\
      (length (postureData (run evs)) = 1 -> trendUp s = false).
Proof.
  intros evs. pose proof (window_length_le evs) as Hlen.
  remember (postureData (run evs)) as buf eqn:Hbuf. clear Hbuf evs.
  destruct (stats_fields buf) as (s & Hs & _).
  exists s. split; [exact Hs|].
  destruct buf as [|d [|d2 rest]].
  - cbn in Hs. injection Hs as <-. cbn.
    repeat split; try discriminate; try reflexivity; intros; lia.
  - assert (Hnan : improvement s = JS.NaN).
    { rewrite (improvement_of_counts [d] s Hs) by discriminate.
      cbn [length firstn skipn filter]. change (1 / 2) with 0. cbn [firstn filter length].
      unfold trend_of_counts. change (JS.div (JS.of_nat 0) (JS.of_nat 0)) with JS.NaN.
      destruct (JS.div _ _); reflexivity. }
    unfold trendUp. rewrite Hnan. cbn [length].
    repeat split; try reflexivity; intros; lia.
  - set (buf := d :: d2 :: rest) in *.
    assert (Hn : 2 <= length buf <= 50) by (cbn [length buf] in *; lia).
    rewrite (improvement_of_counts buf s Hs) by discriminate.
    pose proof (half_le (length buf)) as Hh.
    assert (Hc : trend_check (length buf,
                              length (filter is_good (firstn (length buf / 2) buf)),
                              length (filter is_good (skipn (length buf / 2) buf))) = true).
    { apply trend_checked; [exact Hn| |].
      - pose proof (filter_length_le is_good (firstn (length buf / 2) buf)) as H.
        rewrite length_firstn in H. lia.
      - pose proof (filter_length_le is_good (skipn (length buf / 2) buf)) as H.
        rewrite length_skipn in H. lia. }
    unfold trend_check in Hc. rewrite !andb_true_iff in Hc.
    destruct Hc as [[[_ Hle] Hge] _].
    split; [|split].
    + split; [|lia]. intros Hnan. rewrite Hnan in Hle. discriminate.
    + intros _. split; assumption.
    + lia.
Qed.

(** X9.  For a reachable buffer of at least two events the upward trend is
    shown exactly when the good rate of the second half is at least that
    of the first half, compared exactly (cross multiplied): rounding never
    flips the arrow.  The improvement is below 0 exactly otherwise. *)
Theorem X9_trend_arrow_exact :
  forall evs : list PostureData,
    2 <= length (postureData (run evs)) ->
    exists s, stats (postureData (run evs)) = Some s /\
      (trendUp s = true <->
       length (filter is_good (firstn (length (postureData (run evs)) / 2)
                                      (postureData (run evs))))
         * (length (postureData (run evs)) - length (postureData (run evs)) / 2)
       <= length (filter is_good (skipn (length (postureData (run evs)) / 2)
                                        (postureData (run evs))))
         * (length (postureData (run evs)) / 2)) /\
      (JS.ltb (improvement s) JS.zero = true <-> trendUp s = false).
Proof.
  intros evs Hlo. pose proof (window_length_le evs) as Hhi.
  remember (postureData (run evs)) as buf eqn:Hbuf. clear Hbuf evs.
  destruct (stats_fields buf) as (s & Hs & _).
  exists s. split; [exact Hs|].
  assert (Hne : buf <> []) by (intros ->; cbn in Hlo; lia).
  unfold trendUp. rewrite (improvement_of_counts buf s Hs Hne).
  pose proof (half_le (length buf)) as Hh.
  assert (Hc : trend_check (length buf,
                            length (filter is_good (firstn (length buf / 2) buf)),
                            length (filter is_good (skipn (length buf / 2) buf))) = true).
  { apply trend_checked; [lia| |].
    - pose proof (filter_length_le is_good (firstn (length buf / 2) buf)) as H.
      rewrite length_firstn in H. lia.
    - pose proof (filter_length_le is_good (skipn (length buf / 2) buf)) as H.
      rewrite length_skipn in H. lia. }
  unfold trend_check in Hc. rewrite !andb_true_iff, !Bool.eqb_true_iff in Hc.
  destruct Hc as [[[Hsign _] _] Hneg].
  rewrite Hsign, Hneg, Nat.leb_le, Nat.ltb_lt.
  split; [reflexivity|].
  rewrite <- Bool.not_true_iff_false, Nat.leb_le. lia.
Qed.

Lemma X9_trend_arrow_exact_witness :
  exists s,
    stats (postureData (run [sample_event bad 0; sample_event good 1])) = Some s /\
    trendUp s = true.
Proof.
  destruct (X9_trend_arrow_exact [sample_event bad 0; sample_event good 1] (le_n 2))
    as (s & Hs & Hup & _).
  exists s. split; [exact Hs|]. apply Hup. vm_compute. lia.
Defined.


(** X10.  For every reachable buffer the three percentages lie between 0 and
    100 (they are never NaN: the division is guarded); the good percentage
    is exactly 100 when the buffer is non-empty and all good, and exactly 0
    when no event is good. *)
Theorem X10_percentages_in_range :
  forall evs : list PostureData,
    exists s, stats (postureData (run evs)) = Some s /\
      in_percent_range (goodPercentage s) /\
      in_percent_range (warningPercentage s) /\
      in_percent_range (badPercentage s) /\
      (goodPercentage s = JS.lit_100
       <-> postureData (run evs) <> [] /\ all_good (postureData (run evs))) /\
      (goodPercentage s = JS.zero <-> goodPosture s = 0).
Proof.
  intros evs. pose proof (window_length_le evs) as Hlen.
  remember (postureData (run evs)) as buf eqn:Hbuf. clear Hbuf evs.
  destruct (stats_fields buf) as (s & Hs & Ht & Hg & Hw & Hb & _).
  exists s. split; [exact Hs|].
  unfold goodPercentage, warningPercentage, badPercentage.
  rewrite Ht, Hg, Hw, Hb.
  destruct buf as [|d rest].
  - cbn. repeat split; try reflexivity; try discriminate.
    + intros [H _]. now elim H.
  - set (buf := d :: rest) in *.
    assert (Hn : 1 <= length buf <= 50) by (cbn [length buf] in *; lia).
    replace (0 <? length buf) with true by (symmetry; apply Nat.ltb_lt; lia).
    assert (Hall : forall f, percent_check (length (filter f buf), length buf) = true)
      by (intros f; apply percent_checked; [exact Hn|apply filter_length_le]).
    assert (Hrange : forall f,
               in_percent_range
                 (JS.mul (JS.div (JS.of_nat (length (filter f buf)))
                                 (JS.of_nat (length buf))) JS.lit_100)).
    { intros f. specialize (Hall f). unfold percent_check, percent_of in Hall.
      rewrite !andb_true_iff in Hall. destruct Hall as [[[H0 H100] _] _].
      split; assumption. }
    split; [apply Hrange|]. split; [apply Hrange|]. split; [apply Hrange|].
    specialize (Hall is_good). unfold percent_check, percent_of in Hall.
    rewrite !andb_true_iff, !Bool.eqb_true_iff in Hall.
    destruct Hall as [[_ H100] H0].
    split.
    + rewrite <- number_eqb_eq, H100, Nat.eqb_eq, all_good_iff_count.
      split; [intros H; split; [discriminate|exact H]|now intros [_ H]].
    + now rewrite <- number_eqb_eq, H0, Nat.eqb_eq.
Qed.

(** X11.  For every reachable buffer the posture score is an integer between
    0 and 100 that is within half a point of the exact percentage
    [100 * good / total]. *)
Theorem X11_postureScore_nearest_integer :
  forall evs : list PostureData,
    exists s k,
      stats (postureData (run evs)) = Some s /\
      postureScore s = JS.of_Z k /\
      (0 <= k <= 100)%Z /\
      (2 * Z.abs (k * Z.of_nat (totalReadings s) - 100 * Z.of_nat (goodPosture s))
       <= Z.of_nat (totalReadings s))%Z.
Proof.
  intros evs. pose proof (window_length_le evs) as Hlen.
  remember (postureData (run evs)) as buf eqn:Hbuf. clear Hbuf evs.
  destruct (stats_fields buf) as (s & Hs & Ht & Hg & _).
  exists s. unfold postureScore, goodPercentage. rewrite Ht, Hg.
  destruct buf as [|d rest].
  - exists 0%Z. cbn. repeat split; try reflexivity; try lia. exact Hs.
  - set (buf := d :: rest) in *.
    assert (Hn : 1 <= length buf <= 50) by (cbn [length buf] in *; lia).
    replace (0 <? length buf) with true by (symmetry; apply Nat.ltb_lt; lia).
    pose proof (filter_length_le is_good buf) as Hgl.
    pose proof (score_checked (length (filter is_good buf)) (length buf) Hn Hgl) as Hc.
    unfold score_check, percent_of in Hc.
    set (g := Z.of_nat (length (filter is_good buf))) in *.
    set (n := Z.of_nat (length buf)) in *.
    assert (Hgn : (0 <= g <= n)%Z) by (unfold g, n; lia).
    assert (Hnpos : (0 < n)%Z) by (unfold n; lia).
    pose proof (Z.div_mod (100 * g) n ltac:(lia)) as Hdm.
    pose proof (Z.mod_pos_bound (100 * g) n Hnpos) as Hmb.
    set (k := (100 * g / n)%Z) in *.
    assert (Hk : (0 <= k <= 100)%Z) by nia.
    apply orb_true_iff in Hc.
    destruct Hc as [Hc|Hc]; apply andb_true_iff in Hc as [Heq Hb];
      apply number_eqb_eq in Heq; apply Z.leb_le in Hb.
    + exists k. split; [exact Hs|]. split; [exact Heq|]. split; [exact Hk|]. lia.
    + exists (k + 1)%Z. split; [exact Hs|]. split; [exact Heq|]. split; [nia|]. lia.
Qed.
End ViewFacts.

(** ** Readings of the mock classifier *)

Module ReadingFacts.
Local Unset Implicit Arguments.
Import Index StatsPanel StatsFacts WindowFacts ClassifierFacts.

Lemma analyze_status_cases (i : Draw) :
  (status (analyze i) = good /\ warnings (analyze i) = []) \/
  (status (analyze i) = warning /\ length (warnings (analyze i)) = 1) \/
  (status (analyze i) = bad /\ length (warnings (analyze i)) = 1).
Proof.
  unfold analyze, VideoCapture.analyzePosture.
  destruct (draw_activity i);
    repeat match goal with |- context [if ?c then _ else _] => destruct c end;
    cbn; auto.
Qed.

(** X12.  A reading of [analyzePosture] carries no warning exactly when its
    status is good, and exactly one warning otherwise; its timestamp is the
    clock value and its key points are the empty array. *)
Theorem X12_warnings_match_status :
  forall (activity : ActivityType) (random random2 : JS.number) (now : Z),
    let d := VideoCapture.analyzePosture activity random random2 now in
    (status d = good <-> warnings d = []) /\
    (status d <> good -> length (warnings d) = 1) /\
    timestamp d = now /\
    keyPoints d = Some [].
Proof.
  intros activity random random2 now.
  unfold VideoCapture.analyzePosture.
  destruct activity;
    repeat match goal with |- context [if ?c then _ else _] => destruct c end;
    cbn; repeat split; try reflexivity; try discriminate; try (intros H; now elim H).
Qed.

(** X13.  For the same random draw, desk sitting is never judged more
    severely than a squat: a bad desk reading is a bad squat reading, and a
    desk warning is a squat warning or worse. *)
Theorem X13_desk_sitting_never_stricter :
  forall (random random2 random2' : JS.number) (now now' : Z),
    severity (status (VideoCapture.analyzePosture desk_sitting random random2 now))
    <= severity (status (VideoCapture.analyzePosture squat random random2' now')).
Proof.
  intros random random2 random2' now now'. unfold VideoCapture.analyzePosture.
  destruct (JS.ltb random JS.lit_0_2) eqn:H2.
  - assert (H3 : JS.ltb random JS.lit_0_3 = true).
    { revert H2. apply ltb_below_larger_literal. lia. }
    rewrite H3. cbn. lia.
  - destruct (JS.ltb random JS.lit_0_4) eqn:H4.
    + assert (H5 : JS.ltb random JS.lit_0_5 = true).
      { revert H4. apply ltb_below_larger_literal. lia. }
      destruct (JS.ltb random JS.lit_0_3); [cbn; lia|]. rewrite H5. cbn. lia.
    + cbn. lia.
Qed.

Lemma no_neutral_count (l : list PostureData) :
  Forall (fun d => status d <> neutral) l -> length (filter is_neutral l) = 0.
Proof.
  induction 1 as [|d l Hd _ IH]; [reflexivity|].
  simpl. unfold is_neutral at 1. destruct (status d); simpl; congruence.
Qed.

(** X14.  In a session whose readings all come from [analyzePosture], the
    good, warning and bad counts of the snapshot sum to the total. *)
Theorem X14_session_counts_sum_to_total :
  forall draws : list Draw,
    exists s, stats (postureData (run (map analyze draws))) = Some s /\
      goodPosture s + warningPosture s + badPosture s = totalReadings s.
Proof.
  intros draws.
  destruct (stats_fields (postureData (run (map analyze draws))))
    as (s & Hs & Ht & Hg & Hw & Hb & _).
  exists s. split; [exact Hs|]. rewrite Ht, Hg, Hw, Hb.
  pose proof (count_partition (postureData (run (map analyze draws)))) as Hsum.
  rewrite no_neutral_count in Hsum; [lia|].
  rewrite run_window. apply Forall_forall. intros d Hd.
  assert (Hin : In d (map analyze draws)).
  { rewrite <- (firstn_skipn (length (map analyze draws) - 50) (map analyze draws)).
    apply in_or_app. now right. }
  apply in_map_iff in Hin as (i & <- & _).
  destruct (analyze_status_cases i) as [[-> _]|[[-> _]|[-> _]]]; discriminate.
Qed.
End ReadingFacts.

(** ** The confidence badge *)

Module BadgeFacts.
Local Unset Implicit Arguments.
Import Binary64Facts.
Local Open Scope Z_scope.

(** A draw of [0, 1) is a zero or a positive number with exponent at most
    -53. *)
Lemma draw_exponent (s : bool) (m : positive) (e : Z) :
  JS.valid (S754_finite s m e) = true ->
  JS.geb (S754_finite s m e) JS.zero = true ->
  JS.ltb (S754_finite s m e) JS.lit_1 = true ->
  s = false /\ e <= -53.
Proof.
  intros Hvalid Hge Hlt. destruct s; [discriminate|]. split; [reflexivity|].
  apply ClassifierFacts.ltb_finite_pos in Hlt.
  destruct Hlt as [Hlt|[-> Hm]]; [lia|]. exfalso.
  unfold JS.valid, valid_binary, bounded, canonical_mantissa in Hvalid.
  apply andb_true_iff in Hvalid as [Hcan _]. apply Z.eqb_eq in Hcan.
  rewrite fexp_eq in Hcan.
  pose proof (digits2_pos_bounds m) as [Hlo _].
  assert (Hp : 2 ^ 52 <= 2 ^ (Zpos (digits2_pos m) - 1))
    by (apply Z.pow_le_mono_r; lia).
  change (2 ^ 52) with 4503599627370496 in Hp. lia.
Qed.

(** The confidence of a draw of [0, 1) has exponent -53 and a mantissa
    between those of 0.7 and of the largest number below 1. *)
Lemma confidence_mantissa (r : JS.number) :
  JS.valid r = true -> JS.geb r JS.zero = true -> JS.ltb r JS.lit_1 = true ->
  exists mc,
    JS.add (JS.mul r JS.lit_0_3) JS.lit_0_7 = S754_finite false mc (-53) /\
    6305039478318694 <= Zpos mc <= 9007199254740991.
Proof.
  intros Hvalid Hge Hlt. destruct r as [s|s| |s m e].
  - exists 6305039478318694%positive. split; [now destruct s|lia].
  - destruct s; discriminate.
  - discriminate.
  - destruct (draw_exponent s m e Hvalid Hge Hlt) as [-> He].
    unfold JS.add, JS.mul.
    destruct (mul_lit_0_3_bounds m e Hvalid He) as [->|(mp & ep & -> & Hep & Hmp)].
    + exists 6305039478318694%positive. split; [reflexivity|lia].
    + exact (add_lit_0_7_bounds mp ep Hep Hmp).
Qed.

(** A number of the binade of 0.7 times 100, rounded to an integer, is
    between 70 and 100. *)
Lemma round_times_100 (mc : positive) :
  6305039478318694 <= Zpos mc <= 9007199254740991 ->
  exists k,
    JSMath.round (JS.mul (S754_finite false mc (-53)) JS.lit_100) = JS.of_Z k /\
    70 <= k <= 100.
Proof.
  intros Hmc. unfold JS.mul, JS.lit_100. cbn [SFmul xorb].
  set (P := (mc * 7036874417766400)%positive).
  assert (HP : Zpos P = Zpos mc * 7036874417766400) by (unfold P; apply Pos2Z.inj_mul).
  assert (Hd : Zpos (digits2_pos P) = 106).
  { apply Z.le_antisymm.
    - apply digits2_pos_le.
      change (2 ^ 106) with 81129638414606681695789005144064. lia.
    - change 106 with (105 + 1). apply digits2_pos_ge.
      change (2 ^ 105) with 40564819207303340847894502572032. lia. }
  destruct (binary_round_aux_exact false (Zpos P) (-53 + -46)) as (q1 & Hb & _ & Hres);
    [lia|].
  cbn [Zdigits2] in Hb, Hres. rewrite Hd, fexp_eq in Hb, Hres.
  change (Z.max 0 (Z.max (106 + (-53 + -46) - 53) (-1074) - (-53 + -46))) with 53 in Hb, Hres.
  change (2 ^ 53) with 9007199254740992 in Hb.
  assert (Hq1 : 4925812092436479 <= q1 <= 7036874417766400).
  { pose proof (Z.div_mod (Zpos P) 9007199254740992 ltac:(lia)).
    pose proof (Z.mod_pos_bound (Zpos P) 9007199254740992 ltac:(lia)).
    set (q := Zpos P / 9007199254740992) in *.
    lia. }
  destruct q1 as [|mq|mq]; try lia.
  assert (Hdq : Zpos (digits2_pos mq) = 53).
  { apply Z.le_antisymm.
    - apply digits2_pos_le. change (2 ^ 53) with 9007199254740992. lia.
    - change 53 with (52 + 1). apply digits2_pos_ge.
      change (2 ^ 52) with 4503599627370496. lia. }
  specialize (Hres (-46) 0 eq_refl).
  rewrite Hres.
  - rewrite Z.pow_0_r, Z.div_1_r.
    change (-46 + 0 <=? JS.emax - JS.prec) with true. cbv iota.
    change (-46 + 0) with (-46).
    unfold JSMath.round. change (0 <=? -46) with false. cbv iota.
    cbn [cond_Zopp]. change (2 ^ (- -46)) with 70368744177664.
    change (2 ^ (1 - -46)) with 140737488355328.
    set (k := (2 * Zpos mq + 70368744177664) / 140737488355328).
    assert (Hk : 70 <= k <= 100).
    { unfold k.
      pose proof (Z.div_mod (2 * Zpos mq + 70368744177664) 140737488355328 ltac:(lia)).
      pose proof (Z.mod_pos_bound (2 * Zpos mq + 70368744177664) 140737488355328 ltac:(lia)).
      lia. }
    exists k. split; [|exact Hk].
    destruct (Z.eqb_spec k 0) as [H0|_]; [lia|reflexivity].
  - cbn [Zdigits2]. rewrite Hdq, fexp_eq. reflexivity.
Qed.

(** X15.  For a reading of [analyzePosture] whose confidence draw is a
    binary64 number of [0, 1), the confidence badge
    [Math.round(confidence * 100)] is an integer between 70 and 100. *)
Theorem X15_confidence_badge_between_70_and_100 :
  forall (activity : ActivityType) (random random2 : JS.number) (now : Z),
    JS.valid random2 = true ->
    JS.geb random2 JS.zero = true ->
    JS.ltb random2 JS.lit_1 = true ->
    exists k,
      PostureAnalysis.confidencePercent
        (VideoCapture.analyzePosture activity random random2 now) = JS.of_Z k /\
      70 <= k <= 100.
Proof.
  intros activity random random2 now Hvalid Hge Hlt.
  destruct (confidence_mantissa random2 Hvalid Hge Hlt) as (mc & Hc & Hmc).
  destruct (round_times_100 mc Hmc) as (k & Hk & Hrange).
  exists k. split; [|exact Hrange].
  unfold PostureAnalysis.confidencePercent.
  replace (confidence (VideoCapture.analyzePosture activity random random2 now))
    with (S754_finite false mc (-53)); [exact Hk|].
  rewrite <- Hc. unfold VideoCapture.analyzePosture.
  destruct activity;
    repeat match goal with |- context [if ?b then _ else _] => destruct b end;
    reflexivity.
Qed.

Lemma X15_confidence_badge_between_70_and_100_witness :
  exists k,
    PostureAnalysis.confidencePercent
      (VideoCapture.analyzePosture squat JS.lit_0_2 JS.lit_0_5 0) = JS.of_Z k /\
    70 <= k <= 100.
Proof.
  exact (X15_confidence_badge_between_70_and_100 squat JS.lit_0_2 JS.lit_0_5 0
           eq_refl eq_refl eq_refl).
Defined.

End BadgeFacts.
